(** * Request tracing: tracer initialisation and HTTP middleware

    A shallow embedding of the two variants of package [tracing]
    (the Jaeger exporter variant, [tracing.go], and the OTLP/HTTP exporter
    variant) together with the parts of the Go runtime, [net/http],
    [chi/middleware] and the OpenTelemetry API that the package calls.

    The package code is embedded function by function ([InitTracer],
    [Middleware], [StartSpan], [HTTPMiddleware]).  Process-wide state (the
    registered tracer provider, the package variable [serviceName], the span
    store and the monotonic clock) is threaded explicitly through a [World];
    a Go panic is a result value that skips the rest of the function body
    and still runs the deferred call. *)

From Stdlib Require Import ZArith Lia Bool List.
From Stdlib Require Import Strings.String Strings.Byte.
From stdpp Require Import base option list strings.

Import ListNotations.
Local Open Scope Z_scope.

(** ** Go runtime: 64-bit integers, monotonic time, float conversion *)

Module Go.

Definition int64_min : Z := - 2 ^ 63.
Definition int64_max : Z := 2 ^ 63 - 1.

(** Two's-complement wrap-around of [int64] arithmetic. *)
Definition wrap64 (z : Z) : Z := (z + 2 ^ 63) mod 2 ^ 64 - 2 ^ 63.

Definition in_int64 (z : Z) : Prop := int64_min <= z <= int64_max.

(** [error] values raised by the constructors of the SDK. *)
Inductive error := errorString (msg : string).

(** The value carried by a panic. *)
Inductive PanicValue :=
| PanicError (e : error)                (* panic(err) *)
| PanicInvalidWriteHeaderCode (code : Z) (* net/http checkWriteHeaderCode *)
| PanicHandler (v : string).            (* a panic raised by a handler *)

End Go.

Module time.
Import Go.

(** [time.Duration] is an [int64] count of nanoseconds. *)
Definition Duration := Z.
Definition minDuration : Duration := int64_min.
Definition maxDuration : Duration := int64_max.

(** A [time.Time] taken by [time.Now]: it always carries a monotonic
    reading ([ext], nanoseconds since process start), the only part
    [time.Since] looks at. *)
Record Time := { ext : Z }.

(** [time.Now] at monotonic clock reading [mono]. *)
Definition Now (mono : Z) : Time := {| ext := mono |}.

(** [subMono t u]: the saturating [int64] difference of two readings. *)
Definition subMono (t u : Z) : Duration :=
  let d := wrap64 (t - u) in
  if (d <? 0) && (u <? t) then maxDuration
  else if (0 <? d) && (t <? u) then minDuration
  else d.

(** [time.Since t] at monotonic clock reading [mono]. *)
Definition Since (t : Time) (mono : Z) : Duration := subMono mono (ext t).

(** [Duration.Milliseconds]: [int64(d) / 1e6], Go's truncating division. *)
Definition Milliseconds (d : Duration) : Z := Z.quot d 1000000.

End time.

Module float64.

(** The conversion [float64(n)] of an [int64]: round to nearest, ties to
    even, on a 53-bit significand.  The result is always an integer; it
    is given as that integer. *)
Definition of_int64 (n : Z) : Z :=
  let a := Z.abs n in
  if a <? 2 ^ 53 then n
  else
    let e := Z.log2 a - 52 in
    let q := Z.shiftr a e in
    let r := a - Z.shiftl q e in
    let half := Z.shiftl 1 (e - 1) in
    let q' := if (half <? r) || ((half =? r) && Z.odd q) then q + 1 else q in
    Z.sgn n * Z.shiftl q' e.

End float64.

(** ** Contexts *)

Module context.

(** The two values the package reads from or stores in a
    [context.Context]: the request id put there by chi's [RequestID]
    middleware and the current span (by its index in the span store). *)
Record Context := {
  reqID : option string;
  span : option nat
}.

Definition Background : Context := {| reqID := None; span := None |}.

End context.

(** ** net/http *)

Module url.
Record URL := { Path : string; RawQuery : string }.
End url.

Module http.
Import Go.

Definition StatusOK : Z := 200.
Definition StatusSwitchingProtocols : Z := 101.

Record Request := {
  Method : string;
  URL : url.URL;
  RemoteAddr : string;
  ProtoMajor : Z;
  ctx : context.Context
}.

Definition Context (r : Request) : context.Context := ctx r.

Definition WithContext (r : Request) (c : context.Context) : Request :=
  {| Method := Method r; URL := URL r; RemoteAddr := RemoteAddr r;
     ProtoMajor := ProtoMajor r; ctx := c |}.

(** The interface [http.ResponseWriter], with [http.Flusher], as far as
    handlers here use it. *)
Class ResponseWriter (W : Type) := {
  WriteHeader : Z -> W -> W * option PanicValue;
  Write : list byte -> W -> W * Z;
  Flush : W -> W
}.

(** The server's own response writer: what has been sent to the client,
    and whether the request it answers is a [HEAD] request. *)
Record response := {
  isHead : bool;
  wroteHeader : bool;
  status : Z;
  informational : list Z;
  body : list byte
}.

Definition newResponse : response :=
  {| isHead := false; wroteHeader := false; status := 0;
     informational := []; body := [] |}.

Definition isInformational (code : Z) : bool :=
  (100 <=? code) && (code <=? 199) && negb (code =? StatusSwitchingProtocols).

Definition validWriteHeaderCode (code : Z) : bool :=
  (100 <=? code) && (code <=? 999).

Definition response_WriteHeader (code : Z) (w : response)
  : response * option PanicValue :=
  if wroteHeader w then (w, None)           (* superfluous call: logged, ignored *)
  else if negb (validWriteHeaderCode code)
  then (w, Some (PanicInvalidWriteHeaderCode code))
  else if isInformational code
  then ({| isHead := isHead w; wroteHeader := false; status := status w;
           informational := informational w ++ [code];
           body := body w |}, None)
  else ({| isHead := isHead w; wroteHeader := true; status := code;
           informational := informational w; body := body w |}, None).

Definition bodyAllowedForStatus (st : Z) : bool :=
  if (100 <=? st) && (st <=? 199) then false
  else if st =? 204 then false
  else if st =? 304 then false
  else true.

(** [Write]: an implicit [WriteHeader(200)] first; nothing is written
    where the status allows no body, and the bytes written in answer to a
    [HEAD] request are counted but not sent. *)
Definition response_Write (buf : list byte) (w : response) : response * Z :=
  let w1 := if wroteHeader w then w else fst (response_WriteHeader StatusOK w) in
  if (Z.of_nat (length buf) =? 0) then (w1, 0)
  else if negb (bodyAllowedForStatus (status w1)) then (w1, 0)
  else if isHead w1 then (w1, Z.of_nat (length buf))
  else ({| isHead := isHead w1; wroteHeader := wroteHeader w1;
           status := status w1; informational := informational w1;
           body := body w1 ++ buf |}, Z.of_nat (length buf)).

(** [Flush]: an implicit [WriteHeader(200)] first; what has been written
    is then on the wire. *)
Definition response_Flush (w : response) : response :=
  if wroteHeader w then w else fst (response_WriteHeader StatusOK w).

#[global] Instance response_ResponseWriter : ResponseWriter response :=
  {| WriteHeader := response_WriteHeader; Write := response_Write;
     Flush := response_Flush |}.

(** The status line the client finally receives: the server sends
    [200 OK] when the handler returns without having written a header. *)
Definition clientStatus (w : response) : Z :=
  if wroteHeader w then status w else StatusOK.

(** What a handler does while it serves a request: the calls on its
    response writer, the time it takes, and the panic it may raise.  A
    handler may call [WriteHeader] where a deferred [recover] catches the
    panic of an invalid status code, and carry on
    ([OpRecoveredWriteHeader]); a recovered block of several calls does
    what its calls up to the panicking one do. *)
Inductive HandlerOp :=
| OpWriteHeader (code : Z)
| OpRecoveredWriteHeader (code : Z)
| OpWrite (buf : list byte)
| OpFlush
| OpElapse (ns : N)
| OpPanic (v : string).

(** A handler: what it does, given the request it is called with. *)
Definition Handler := Request -> list HandlerOp.

(** The handler's operations carried out on writer [w] from monotonic
    clock reading [mono]: the writer and the clock when the handler returns
    or panics, and the panic. *)
Fixpoint perform {W} `{ResponseWriter W} (ops : list HandlerOp) (w : W) (mono : Z)
  : W * Z * option PanicValue :=
  match ops with
  | [] => (w, mono, None)
  | OpWriteHeader code :: k =>
      match WriteHeader code w with
      | (w', Some v) => (w', mono, Some v)
      | (w', None) => perform k w' mono
      end
  | OpRecoveredWriteHeader code :: k => perform k (fst (WriteHeader code w)) mono
  | OpWrite buf :: k => perform k (fst (Write buf w)) mono
  | OpFlush :: k => perform k (Flush w) mono
  | OpElapse ns :: k => perform k w (mono + Z.of_N ns)
  | OpPanic v :: _ => (w, mono, Some (PanicHandler v))
  end.

(** [h.ServeHTTP(w, r)] at monotonic clock reading [mono]. *)
Definition ServeHTTP {W} `{ResponseWriter W} (h : Handler) (w : W) (r : Request)
    (mono : Z) : W * Z * option PanicValue :=
  perform (h r) w mono.

End http.

(** ** chi/middleware: request id and the wrapping response writer *)

Module middleware.
Import Go.

(** [GetReqID]: the request id in the context, or the empty string. *)
Definition GetReqID (c : context.Context) : string :=
  match context.reqID c with
  | Some id => id
  | None => ""%string
  end.

(** [basicWriter] of chi v5's [wrap_writer.go], the state every writer
    returned by [NewWrapResponseWriter] embeds.  [Tee] and [Discard] are
    never called by the package, so their fields stay at their zero values
    and are left out. *)
Record basicWriter := {
  inner : http.response;        (* the embedded http.ResponseWriter *)
  wroteHeader : bool;
  code : Z;
  bytes : Z
}.

Definition NewWrapResponseWriter (w : http.response) (protoMajor : Z)
  : basicWriter :=
  {| inner := w; wroteHeader := false; code := 0; bytes := 0 |}.

(** [WriteHeader]: an informational code (1xx other than 101) is passed
    on without being recorded; otherwise the first code is recorded, then
    passed on, and later ones are dropped. *)
Definition basicWriter_WriteHeader (c : Z) (b : basicWriter)
  : basicWriter * option PanicValue :=
  if http.isInformational c then
    let '(w', p) := http.response_WriteHeader c (inner b) in
    ({| inner := w'; wroteHeader := wroteHeader b; code := code b;
        bytes := bytes b |}, p)
  else if negb (wroteHeader b) then
    let '(w', p) := http.response_WriteHeader c (inner b) in
    ({| inner := w'; wroteHeader := true; code := c; bytes := bytes b |}, p)
  else (b, None).

Definition maybeWriteHeader (b : basicWriter) : basicWriter :=
  if negb (wroteHeader b) then fst (basicWriter_WriteHeader http.StatusOK b)
  else b.

Definition basicWriter_Write (buf : list byte) (b : basicWriter)
  : basicWriter * Z :=
  let b1 := maybeWriteHeader b in
  let '(w', n) := http.response_Write buf (inner b1) in
  ({| inner := w'; wroteHeader := wroteHeader b1; code := code b1;
      bytes := bytes b1 + n |}, n).

(** [Flush] of the writers that wrap an [http.Flusher]: the header counts
    as written, no status is recorded. *)
Definition basicWriter_Flush (b : basicWriter) : basicWriter :=
  {| inner := http.response_Flush (inner b); wroteHeader := true;
     code := code b; bytes := bytes b |}.

(** [Status]: the status written through the wrapper, or 0 if none has
    been sent yet. *)
Definition Status (b : basicWriter) : Z := code b.

Definition Unwrap (b : basicWriter) : http.response := inner b.

#[global] Instance basicWriter_ResponseWriter : http.ResponseWriter basicWriter :=
  {| http.WriteHeader := basicWriter_WriteHeader;
     http.Write := basicWriter_Write;
     http.Flush := basicWriter_Flush |}.

End middleware.

(** ** OpenTelemetry: attributes, resources, providers, spans *)

Module attribute.

Inductive Value :=
| STRING (s : string)
| INT64 (n : Z)
| FLOAT64 (v : Z).   (* a float64 whose value is the integer [v] *)

Definition Key := string.
Definition KeyValue : Type := Key * Value.

Definition String (k : Key) (v : string) : KeyValue := (k, STRING v).
Definition Int (k : Key) (v : Z) : KeyValue := (k, INT64 v).
Definition Float64 (k : Key) (v : Z) : KeyValue := (k, FLOAT64 v).

Definition keys (kvs : list KeyValue) : list Key := map fst kvs.

Fixpoint lookup (k : Key) (kvs : list KeyValue) : option Value :=
  match kvs with
  | [] => None
  | (k', v) :: rest => if String.eqb k k' then Some v else lookup k rest
  end.

End attribute.

Module semconv.

(** Modelled from the spec: the attribute keys of package
    [semconv/v1.21.0], which is not part of the repository; the spec's
    attribute set names them [http.method], [http.target] and
    [http.status_code], and the source comment names [service.name]. *)
Definition ServiceNameKey : attribute.Key := "service.name"%string.
Definition HTTPMethodKey : attribute.Key := "http.method"%string.
Definition HTTPTargetKey : attribute.Key := "http.target"%string.
Definition HTTPStatusCodeKey : attribute.Key := "http.status_code"%string.

End semconv.

Module sdk.

Inductive Transport := JaegerCollector | OTLPHTTP.

Record Exporter := {
  transport : Transport;
  endpoint : string;
  insecure : bool
}.

Record Resource := { attributes : list attribute.KeyValue }.

(** [resource.New(ctx, resource.WithAttributes(kvs...))] when it succeeds. *)
Definition resource_WithAttributes (kvs : list attribute.KeyValue) : Resource :=
  {| attributes := kvs |}.

(** [sdktrace.NewTracerProvider(WithBatcher(exporter), WithResource(res))]:
    the exporter and the resource the provider was given.  (The SDK puts
    the attributes it finds in the process environment under the given
    ones; the given ones take precedence, so [service.name] is the one
    given.) *)
Record TracerProvider := {
  exporter : Exporter;
  resource : Resource
}.

(** [TracerProvider.Tracer(name)] names the tracer it returns; an empty
    name is replaced by the SDK's default. *)
Definition defaultTracerName : string := "go.opentelemetry.io/otel/sdk/tracer".

Definition tracerNameFor (name : string) : string :=
  if String.eqb name "" then defaultTracerName else name.

Definition serviceNameOf (p : TracerProvider) : option attribute.Value :=
  attribute.lookup semconv.ServiceNameKey (attributes (resource p)).

End sdk.

Module trace.

(** A tracer is either one handed out by the default global provider
    before any provider was registered (it forwards to the delegate once
    there is one), or one created by a registered SDK provider, to which
    it stays bound. *)
Inductive Tracer :=
| DelegatingTracer (name : string)
| ProviderTracer (provider : nat) (name : string).

(** The name a tracer goes by: the one asked for from the default
    provider, the one the SDK provider gave it. *)
Definition tracerName (t : Tracer) : string :=
  match t with
  | DelegatingTracer n => n
  | ProviderTracer _ n => n
  end.

Record Span := {
  name : string;
  tracer : Tracer;
  provider : option nat;     (* [None]: a non-recording span *)
  parent : option nat;
  attributes : list attribute.KeyValue;
  endCalls : nat             (* how many times [End] was called on it *)
}.

Definition IsRecording (s : Span) : bool :=
  match provider s with
  | Some _ => Nat.eqb (endCalls s) 0
  | None => false
  end.

Definition ended (s : Span) : bool := negb (Nat.eqb (endCalls s) 0).

(** [span.SetAttributes(kvs...)]: dropped unless the span is recording. *)
Definition Span_SetAttributes (kvs : list attribute.KeyValue) (s : Span) : Span :=
  if IsRecording s then
    {| name := name s; tracer := tracer s; provider := provider s;
       parent := parent s; attributes := attributes s ++ kvs;
       endCalls := endCalls s |}
  else s.

(** [span.End()]. *)
Definition Span_End (s : Span) : Span :=
  {| name := name s; tracer := tracer s; provider := provider s;
     parent := parent s; attributes := attributes s;
     endCalls := S (endCalls s) |}.

End trace.

(** ** Process-wide state *)

Record World := {
  providers : list sdk.TracerProvider;  (* every SDK provider constructed *)
  installed : list nat;                 (* providers given to [otel.SetTracerProvider],
                                           latest first *)
  serviceName : string;                 (* the package variable of the OTLP variant *)
  spans : list trace.Span;              (* every span started, by index *)
  mono : Z                              (* monotonic clock, nanoseconds *)
}.

(** The process at start-up: nothing registered, the package variable at
    its zero value. *)
Definition initialWorld (clock : Z) : World :=
  {| providers := []; installed := []; serviceName := ""%string;
     spans := []; mono := clock |}.

Definition set_spans (s : list trace.Span) (w : World) : World :=
  {| providers := providers w; installed := installed w;
     serviceName := serviceName w; spans := s; mono := mono w |}.

Definition set_mono (m : Z) (w : World) : World :=
  {| providers := providers w; installed := installed w;
     serviceName := serviceName w; spans := spans w; mono := m |}.

Definition set_serviceName (n : string) (w : World) : World :=
  {| providers := providers w; installed := installed w;
     serviceName := n; spans := spans w; mono := mono w |}.

(** Code that may panic, over the process state. *)
Inductive Result (A : Type) :=
| Return (a : A)
| Panicking (v : Go.PanicValue).
Arguments Return {A} a.
Arguments Panicking {A} v.

Definition M (A : Type) : Type := World -> Result A * World.

Definition ret {A} (a : A) : M A := fun w => (Return a, w).
Definition panic {A} (v : Go.PanicValue) : M A := fun w => (Panicking v, w).
Definition bind {A B} (m : M A) (k : A -> M B) : M B :=
  fun w => match m w with
           | (Return a, w') => k a w'
           | (Panicking v, w') => (Panicking v, w')
           end.

#[global] Instance M_ret : MRet M := @ret.
#[global] Instance M_bind : MBind M := fun A B k m => bind m k.

Module otel.
Import trace.

(** The provider [otel.GetTracerProvider] returns: the latest one
    registered, if any. *)
Definition globalProvider (w : World) : option nat := head (installed w).

(** The delegate of the default global provider: the first provider ever
    registered (it is set once). *)
Definition delegate (w : World) : option nat := last (installed w).

(** [otel.Tracer(name)]: the tracer of that name of the global provider. *)
Definition Tracer (name : string) (w : World) : trace.Tracer :=
  match globalProvider w with
  | Some p => ProviderTracer p (sdk.tracerNameFor name)
  | None => DelegatingTracer name
  end.

(** The SDK provider behind a tracer when it starts a span. *)
Definition backing (t : trace.Tracer) (w : World) : option nat :=
  match t with
  | ProviderTracer p _ => Some p
  | DelegatingTracer _ => delegate w
  end.

(** [sdktrace.NewTracerProvider]. *)
Definition NewTracerProvider (e : sdk.Exporter) (r : sdk.Resource) : M nat :=
  fun w =>
    (Return (length (providers w)),
     {| providers := providers w ++ [{| sdk.exporter := e; sdk.resource := r |}];
        installed := installed w; serviceName := serviceName w;
        spans := spans w; mono := mono w |}).

(** [otel.SetTracerProvider]. *)
Definition SetTracerProvider (p : nat) : M unit :=
  fun w =>
    (Return tt,
     {| providers := providers w; installed := p :: installed w;
        serviceName := serviceName w; spans := spans w; mono := mono w |}).

(** [tracer.Start(ctx, name)]: the new context, the span and the state. *)
Definition Start (t : trace.Tracer) (c : context.Context) (n : string) (w : World)
  : context.Context * nat * World :=
  let sid := length (spans w) in
  let s := {| name := n; tracer := t; provider := backing t w;
              parent := context.span c; attributes := []; endCalls := 0 |} in
  ({| context.reqID := context.reqID c; context.span := Some sid |},
   sid, set_spans (spans w ++ [s]) w).

Definition SetAttributes (sid : nat) (kvs : list attribute.KeyValue) (w : World)
  : World :=
  set_spans (alter (Span_SetAttributes kvs) sid (spans w)) w.

Definition End (sid : nat) (w : World) : World :=
  set_spans (alter Span_End sid (spans w)) w.

End otel.

(** The function value [provider.Shutdown] that [InitTracer] returns. *)
Inductive ShutdownFunc := provider_Shutdown (p : nat).

(** ** The Jaeger variant ([tracing.go]) *)

Module Jaeger.
Import Go.

Section Constructors.
(** Whether the SDK's constructors fail on their arguments. *)
Variable jaeger_New_err : string -> option error.
Variable resource_New_err : string -> option error.

(** [jaeger.New(jaeger.WithCollectorEndpoint(jaeger.WithEndpoint(url)))]. *)
Definition jaeger_New (url : string) : sdk.Exporter + error :=
  match jaeger_New_err url with
  | Some e => inr e
  | None => inl {| sdk.transport := sdk.JaegerCollector;
                   sdk.endpoint := url; sdk.insecure := false |}
  end.

Definition resource_New (kvs : list attribute.KeyValue) (svc : string)
  : sdk.Resource + error :=
  match resource_New_err svc with
  | Some e => inr e
  | None => inl (sdk.resource_WithAttributes kvs)
  end.

Definition InitTracer (serviceName jaegerURL : string) : M ShutdownFunc :=
  (match jaeger_New jaegerURL with
   | inr err => panic (PanicError err)
   | inl exporter =>
       match resource_New
               [attribute.String semconv.ServiceNameKey serviceName]
               serviceName with
       | inr err => panic (PanicError err)
       | inl res =>
           provider ← otel.NewTracerProvider exporter res;
           otel.SetTracerProvider provider;;
           mret (provider_Shutdown provider)
       end
   end).
End Constructors.

(** The handler [Middleware] returns: a closure over the tracer taken
    when [Middleware] was called and over [next]. *)
Record Closure := { tracer : trace.Tracer; next : http.Handler }.

Definition Middleware (next : http.Handler) (w : World) : Closure :=
  {| tracer := otel.Tracer "http-server" w; next := next |}.

(** One call of the returned handler: the response writer, the panic that
    leaves the call (if any) and the state afterwards.  [defer span.End()]
    runs on both ways out. *)
Definition serve (m : Closure) (w : http.response) (r : http.Request) (st : World)
  : http.response * option PanicValue * World :=
  let start := time.Now (mono st) in
  let '(ctx, span, st) :=
    otel.Start (tracer m) (http.Context r)
      (http.Method r ++ " " ++ url.Path (http.URL r))%string st in
  let st :=
    otel.SetAttributes span
      [attribute.String semconv.HTTPMethodKey (http.Method r);
       attribute.String semconv.HTTPTargetKey (url.Path (http.URL r));
       attribute.String "http.request_id" (middleware.GetReqID (http.Context r));
       attribute.String "http.client_ip" (http.RemoteAddr r)] st in
  let ww := middleware.NewWrapResponseWriter w (http.ProtoMajor r) in
  let '(ww, now, p) :=
    http.ServeHTTP (next m) ww (http.WithContext r ctx) (mono st) in
  let st := set_mono now st in
  match p with
  | Some v => (middleware.Unwrap ww, Some v, otel.End span st)
  | None =>
      let st :=
        otel.SetAttributes span
          [attribute.Int semconv.HTTPStatusCodeKey (middleware.Status ww);
           attribute.Float64 "http.duration_ms"
             (float64.of_int64 (time.Milliseconds (time.Since start (mono st))))]
          st in
      (middleware.Unwrap ww, None, otel.End span st)
  end.

End Jaeger.

(** ** The OTLP variant *)

Module OTLP.
Import Go.

Section Constructors.
Variable otlptracehttp_New_err : string -> option error.
Variable resource_New_err : string -> option error.

(** [otlptracehttp.New(ctx, WithEndpoint(endpoint), WithInsecure())]. *)
Definition otlptracehttp_New (endpoint : string) : sdk.Exporter + error :=
  match otlptracehttp_New_err endpoint with
  | Some e => inr e
  | None => inl {| sdk.transport := sdk.OTLPHTTP;
                   sdk.endpoint := endpoint; sdk.insecure := true |}
  end.

Definition resource_New (kvs : list attribute.KeyValue) (svc : string)
  : sdk.Resource + error :=
  match resource_New_err svc with
  | Some e => inr e
  | None => inl (sdk.resource_WithAttributes kvs)
  end.

Definition InitTracer (serviceNameParam otlpEndpoint : string) : M ShutdownFunc :=
  ((fun st => (Return tt, set_serviceName serviceNameParam st)) : M unit);;
  ((fun st =>
     (match otlptracehttp_New otlpEndpoint with
      | inr err => panic (PanicError err)
      | inl exporter =>
          match resource_New
                  [attribute.String semconv.ServiceNameKey (serviceName st)]
                  (serviceName st) with
          | inr err => panic (PanicError err)
          | inl res =>
              provider ← otel.NewTracerProvider exporter res;
              otel.SetTracerProvider provider;;
              mret (provider_Shutdown provider)
          end
      end) st) : M ShutdownFunc).
End Constructors.

Definition StartSpan (ctx : context.Context) (name : string) (st : World)
  : context.Context * nat * World :=
  let tracer := otel.Tracer (serviceName st) st in
  otel.Start tracer ctx name st.

Record Closure := { next : http.Handler }.

Definition HTTPMiddleware (next : http.Handler) : Closure := {| next := next |}.

Definition serve (m : Closure) (w : http.response) (r : http.Request) (st : World)
  : http.response * option PanicValue * World :=
  let start := time.Now (mono st) in
  let '(ctx, span, st) :=
    StartSpan (http.Context r)
      (http.Method r ++ " " ++ url.Path (http.URL r))%string st in
  let st :=
    otel.SetAttributes span
      [attribute.String semconv.HTTPMethodKey (http.Method r);
       attribute.String semconv.HTTPTargetKey (url.Path (http.URL r));
       attribute.String "http.request_id" (middleware.GetReqID (http.Context r));
       attribute.String "http.client_ip" (http.RemoteAddr r)] st in
  let ww := middleware.NewWrapResponseWriter w (http.ProtoMajor r) in
  let '(ww, now, p) :=
    http.ServeHTTP (next m) ww (http.WithContext r ctx) (mono st) in
  let st := set_mono now st in
  match p with
  | Some v => (middleware.Unwrap ww, Some v, otel.End span st)
  | None =>
      let st :=
        otel.SetAttributes span
          [attribute.Int semconv.HTTPStatusCodeKey (middleware.Status ww);
           attribute.Float64 "http.duration_ms"
             (float64.of_int64 (time.Milliseconds (time.Since start (mono st))))]
          st in
      (middleware.Unwrap ww, None, otel.End span st)
  end.

End OTLP.

(** ** Vocabulary of the properties *)

Section Vocabulary.
Import middleware.

(** The value recorded as [http.duration_ms] for a request that starts
    at reading [u] and whose handler is done at reading [t]. *)
Definition durationMs (u t : Z) : Z :=
  float64.of_int64 (time.Milliseconds (time.Since (time.Now u) t)).

(** Every header the wrapper has recorded went to the writer it wraps. *)
Definition forwarded (b : basicWriter) : Prop :=
  wroteHeader b = true -> http.wroteHeader (inner b) = true.

(** Where the handler calls [WriteHeader] under a [recover], the status
    code is one [WriteHeader] accepts (100 to 999), so that there is no
    panic to recover from. *)
Definition recoversOnlyValidCodes (ops : list http.HandlerOp) : bool :=
  forallb (fun op =>
             match op with
             | http.OpRecoveredWriteHeader c => http.validWriteHeaderCode c
             | _ => true
             end) ops.

Definition spanName (r : http.Request) : string :=
  (http.Method r ++ " " ++ url.Path (http.URL r))%string.

Definition requestAttributes (r : http.Request) : list attribute.KeyValue :=
  [attribute.String semconv.HTTPMethodKey (http.Method r);
   attribute.String semconv.HTTPTargetKey (url.Path (http.URL r));
   attribute.String "http.request_id" (middleware.GetReqID (http.Context r));
   attribute.String "http.client_ip" (http.RemoteAddr r)].

Definition responseAttributes (ww : middleware.basicWriter) (start now : Z)
  : list attribute.KeyValue :=
  [attribute.Int semconv.HTTPStatusCodeKey (middleware.Status ww);
   attribute.Float64 "http.duration_ms" (durationMs start now)].

(** The span a request leaves in the store, given the tracer that
    started it and how the wrapped handler left. *)
Definition finishedSpan (t : trace.Tracer) (r : http.Request) (st : World)
    (ww : middleware.basicWriter) (now : Z) (p : option Go.PanicValue)
  : trace.Span :=
  {| trace.name := spanName r;
     trace.tracer := t;
     trace.provider := otel.backing t st;
     trace.parent := context.span (http.Context r);
     trace.attributes :=
       match otel.backing t st with
       | Some _ =>
           requestAttributes r ++
           match p with
           | None => responseAttributes ww (mono st) now
           | Some _ => []
           end
       | None => []
       end;
     trace.endCalls := 1 |}.

(** The request the wrapped handler is called with: [r] with the context
    that holds the span just started. *)
Definition traced (r : http.Request) (st : World) : http.Request :=
  http.WithContext r
    {| context.reqID := context.reqID (http.Context r);
       context.span := Some (length (spans st)) |}.

(** The wrapped handler's run against the wrapping response writer. *)
Definition wrappedRun (next : http.Handler) (w : http.response)
    (r : http.Request) (st : World)
  : middleware.basicWriter * Z * option Go.PanicValue :=
  http.ServeHTTP next
    (middleware.NewWrapResponseWriter w (http.ProtoMajor r))
    (traced r st) (mono st).

Definition handled (t : trace.Tracer) (next : http.Handler)
    (w : http.response) (r : http.Request) (st : World)
  : http.response * option Go.PanicValue * World :=
  let res := wrappedRun next w r st in
  (middleware.inner res.1.1, res.2,
   {| providers := providers st; installed := installed st;
      serviceName := serviceName st;
      spans := spans st ++ [finishedSpan t r st res.1.1 res.1.2 res.2];
      mono := res.1.2 |}).

(** Either variant's middleware, installed on a route. *)
Inductive Installed :=
| ViaJaeger (m : Jaeger.Closure)
| ViaOTLP (m : OTLP.Closure).

Definition serve (v : Installed)
  : http.response -> http.Request -> World
    -> http.response * option Go.PanicValue * World :=
  match v with
  | ViaJaeger m => Jaeger.serve m
  | ViaOTLP m => OTLP.serve m
  end.

(** The handler the middleware wraps. *)
Definition nextOf (v : Installed) : http.Handler :=
  match v with
  | ViaJaeger m => Jaeger.next m
  | ViaOTLP m => OTLP.next m
  end.

(** The tracer that starts the span of a request served in state [st]. *)
Definition tracerOf (v : Installed) (st : World) : trace.Tracer :=
  match v with
  | ViaJaeger m => Jaeger.tracer m
  | ViaOTLP _ => otel.Tracer (serviceName st) st
  end.

(** The request's span is recorded: an SDK provider backs its tracer. *)
Definition recording (v : Installed) (st : World) : Prop :=
  is_Some (otel.backing (tracerOf v st) st).

(** The span started by a request served in state [st], in the state the
    request left behind. *)
Definition requestSpan (st : World)
    (res : http.response * option Go.PanicValue * World) : option trace.Span :=
  spans res.2 !! length (spans st).

(** The value of attribute [k] on that span. *)
Definition recorded (k : attribute.Key) (st : World)
    (res : http.response * option Go.PanicValue * World)
  : option attribute.Value :=
  match requestSpan st res with
  | Some s => attribute.lookup k (trace.attributes s)
  | None => None
  end.

(** What the wrapped handler does to the response when no middleware is
    installed: the response writer and the panic that leaves the call. *)
Definition unwrapped (next : http.Handler) (w : http.response)
    (r : http.Request) (st : World)
  : http.response * option Go.PanicValue :=
  ((http.ServeHTTP next w r (mono st)).1.1,
   (http.ServeHTTP next w r (mono st)).2).

(** The handler that does the same on every request. *)
Definition always (ops : list http.HandlerOp) : http.Handler := fun _ => ops.

(** The resource attached to a span: that of the provider that made it. *)
Definition spanResource (st : World) (s : trace.Span) : option sdk.Resource :=
  match trace.provider s with
  | Some p => sdk.resource <$> providers st !! p
  | None => None
  end.

Definition spanServiceName (st : World) (s : trace.Span) : option attribute.Value :=
  match spanResource st s with
  | Some r => attribute.lookup semconv.ServiceNameKey (sdk.attributes r)
  | None => None
  end.

(** The state after a provider with exporter [e] and resource [r] has been
    constructed and registered. *)
Definition registered (e : sdk.Exporter) (r : sdk.Resource) (st : World) : World :=
  {| providers := providers st ++ [{| sdk.exporter := e; sdk.resource := r |}];
     installed := length (providers st) :: installed st;
     serviceName := serviceName st; spans := spans st; mono := mono st |}.

(** Uses of the OTLP variant other than [InitTracer]. *)
Inductive Call :=
| CallStartSpan (ctx : context.Context) (name : string)
| CallServe (m : OTLP.Closure) (w : http.response) (r : http.Request).

Definition call (st : World) (c : Call) : World :=
  match c with
  | CallStartSpan ctx n => (OTLP.StartSpan ctx n st).2
  | CallServe m w r => (OTLP.serve m w r st).2
  end.

Definition run (cs : list Call) (st : World) : World := fold_left call cs st.

(** A span started by a tracer of the default global provider that is
    named by the empty string. *)
Definition unnamed (s : trace.Span) : Prop :=
  trace.tracer s = trace.DelegatingTracer "".

(** Constructors that always succeed, and one that rejects every endpoint. *)
Definition succeeds : string -> option Go.error := fun _ => None.
Definition rejects : string -> option Go.error :=
  fun arg => Some (Go.errorString arg).

(** The request of the spec's example scenario. *)
Definition exampleRequest : http.Request :=
  {| http.Method := "GET";
     http.URL := {| url.Path := "/orders/42"; url.RawQuery := "" |};
     http.RemoteAddr := "10.0.0.5:1234";
     http.ProtoMajor := 1;
     http.ctx := {| context.reqID := Some "abc-123"%string;
                    context.span := None |} |}.

Definition otherRequest : http.Request :=
  {| http.Method := "GET";
     http.URL := {| url.Path := "/orders/43"; url.RawQuery := "" |};
     http.RemoteAddr := "10.0.0.5:1234";
     http.ProtoMajor := 1;
     http.ctx := {| context.reqID := Some "abc-124"%string;
                    context.span := None |} |}.

(** A process in which the Jaeger variant has been initialised, and a
    middleware built there around handler [next]. *)
Definition exampleWorld : World :=
  (Jaeger.InitTracer succeeds succeeds "orders"
     "http://jaeger:14268/api/traces" (initialWorld 1)).2.

Definition exampleMiddleware (next : http.Handler) : Installed :=
  ViaJaeger (Jaeger.Middleware next exampleWorld).

(** A route's traffic: requests served one after the other, each by one
    of the middlewares and with its own response writer. *)
Fixpoint serveAll (reqs : list (Installed * http.response * http.Request))
    (st : World) : World :=
  match reqs with
  | [] => st
  | (v, w, r) :: rest => serveAll rest (serve v w r st).2
  end.

End Vocabulary.

(** * Properties *)

(** ** Monotonic time and the duration attribute *)

Section DurationFacts.
Import Go.

Lemma wrap64_id z : in_int64 z -> wrap64 z = z.
Proof.
  unfold in_int64, int64_min, int64_max, wrap64. intros Hz.
  rewrite Z.mod_small by lia. lia.
Qed.

Lemma wrap64_over z :
  int64_max < z <= int64_max - int64_min -> wrap64 z = z - 2 ^ 64.
Proof.
  unfold int64_min, int64_max, wrap64. intros Hz.
  replace (z + 2 ^ 63) with ((z - 2 ^ 63) + 1 * 2 ^ 64) by lia.
  rewrite Z.mod_add by lia. rewrite Z.mod_small by lia. lia.
Qed.

(** Between two readings of the monotonic clock, the later one second,
    [subMono] is the elapsed time cut off at the largest duration. *)
Lemma subMono_later t u :
  in_int64 t -> in_int64 u -> u <= t ->
  time.subMono t u = Z.min (t - u) time.maxDuration.
Proof.
  intros Ht Hu Hle. unfold time.subMono, time.maxDuration, time.minDuration.
  destruct (Z_le_gt_dec (t - u) int64_max) as [Hfit | Hbig].
  - rewrite wrap64_id by (unfold in_int64, int64_min, int64_max in *; lia).
    rewrite Z.min_l by exact Hfit.
    destruct (Z.ltb_spec (t - u) 0); [lia |].
    destruct (Z.ltb_spec 0 (t - u)), (Z.ltb_spec t u); simpl; lia.
  - rewrite wrap64_over by (unfold in_int64, int64_min, int64_max in *; lia).
    rewrite Z.min_r by lia.
    unfold in_int64, int64_min, int64_max in *.
    destruct (Z.ltb_spec (t - u - 2 ^ 64) 0) as [_ | Hge]; [| lia].
    destruct (Z.ltb_spec u t); [reflexivity | lia].
Qed.

Lemma Milliseconds_nonneg d : 0 <= d -> 0 <= time.Milliseconds d.
Proof. intros Hd. unfold time.Milliseconds. apply Z.quot_pos; lia. Qed.

Lemma Milliseconds_mono d1 d2 :
  0 <= d1 <= d2 -> time.Milliseconds d1 <= time.Milliseconds d2.
Proof. intros Hd. unfold time.Milliseconds. apply Z.quot_le_mono; lia. Qed.

Lemma Milliseconds_bound d :
  0 <= d <= time.maxDuration -> time.Milliseconds d < 2 ^ 53.
Proof.
  intros Hd. unfold time.Milliseconds, time.maxDuration, int64_max in *.
  apply Z.le_lt_trans with (Z.quot (2 ^ 63 - 1) 1000000).
  - apply Z.quot_le_mono; lia.
  - reflexivity.
Qed.

(** Every millisecond count of a non-negative duration is a float64. *)
Lemma of_int64_exact n : 0 <= n < 2 ^ 53 -> float64.of_int64 n = n.
Proof.
  intros Hn. unfold float64.of_int64.
  rewrite Z.abs_eq by lia.
  destruct (Z.ltb_spec n (2 ^ 53)); [reflexivity | lia].
Qed.

Lemma durationMs_later u t :
  in_int64 u -> in_int64 t -> u <= t ->
  durationMs u t = Z.quot (Z.min (t - u) time.maxDuration) 1000000.
Proof.
  intros Hu Ht Hle. unfold durationMs, time.Since, time.Now. simpl.
  rewrite subMono_later by assumption.
  assert (0 <= Z.min (t - u) time.maxDuration <= time.maxDuration) as Hd.
  { unfold time.maxDuration, int64_max. lia. }
  rewrite of_int64_exact; [reflexivity |].
  split; [apply Milliseconds_nonneg; lia | apply Milliseconds_bound; exact Hd].
Qed.

Lemma durationMs_nonneg u t :
  in_int64 u -> in_int64 t -> u <= t -> 0 <= durationMs u t.
Proof.
  intros Hu Ht Hle. rewrite durationMs_later by assumption.
  apply Z.quot_pos; [| lia]. unfold time.maxDuration, int64_max. lia.
Qed.

Lemma durationMs_mono u1 t1 u2 t2 :
  in_int64 u1 -> in_int64 t1 -> u1 <= t1 ->
  in_int64 u2 -> in_int64 t2 -> u2 <= t2 ->
  t1 - u1 <= t2 - u2 ->
  durationMs u1 t1 <= durationMs u2 t2.
Proof.
  intros Hu1 Ht1 H1 Hu2 Ht2 H2 Hle.
  rewrite !durationMs_later by assumption.
  apply Z.quot_le_mono; [lia |].
  apply Z.min_le_compat_r. exact Hle.
Qed.

End DurationFacts.

(** ** The wrapping response writer *)

Section WrapperFacts.
Import middleware.

Lemma forwarded_new w p : forwarded (NewWrapResponseWriter w p).
Proof. unfold forwarded. simpl. discriminate. Qed.

Lemma response_WriteHeader_written c w :
  http.wroteHeader w = true -> http.response_WriteHeader c w = (w, None).
Proof. intros Hw. unfold http.response_WriteHeader. rewrite Hw. reflexivity. Qed.

Lemma WriteHeader_forwarded c b :
  forwarded b ->
  (inner (basicWriter_WriteHeader c b).1, (basicWriter_WriteHeader c b).2)
    = http.response_WriteHeader c (inner b)
  /\ ((basicWriter_WriteHeader c b).2 = None ->
      forwarded (basicWriter_WriteHeader c b).1).
Proof.
  intros Hb. unfold basicWriter_WriteHeader, forwarded in *.
  destruct (http.isInformational c) eqn:Hinf.
  - destruct (http.response_WriteHeader c (inner b)) as [w' p] eqn:Hw. simpl.
    split; [reflexivity |]. intros _ Hwrote.
    specialize (Hb Hwrote).
    rewrite response_WriteHeader_written in Hw by exact Hb. congruence.
  - destruct (wroteHeader b) eqn:Hwrote; simpl.
    + split; [| intros _ _; apply Hb; reflexivity].
      rewrite response_WriteHeader_written by (apply Hb; reflexivity).
      reflexivity.
    + destruct (http.response_WriteHeader c (inner b)) as [w' p] eqn:Hw. simpl.
      split; [reflexivity |]. intros -> _.
      unfold http.response_WriteHeader in Hw. rewrite Hinf in Hw.
      destruct (http.wroteHeader (inner b)) eqn:Hin; [congruence |].
      destruct (negb (http.validWriteHeaderCode c)); [discriminate |].
      inversion Hw; subst. reflexivity.
Qed.

(** A valid status code makes no [WriteHeader] panic. *)
Lemma response_WriteHeader_valid c w :
  http.validWriteHeaderCode c = true -> (http.response_WriteHeader c w).2 = None.
Proof.
  intros Hc. unfold http.response_WriteHeader. rewrite Hc. simpl.
  destruct (http.wroteHeader w); [reflexivity |].
  destruct (http.isInformational c); reflexivity.
Qed.

Lemma Write_forwarded buf b :
  forwarded b ->
  (inner (basicWriter_Write buf b).1, (basicWriter_Write buf b).2)
    = http.response_Write buf (inner b)
  /\ forwarded (basicWriter_Write buf b).1.
Proof.
  unfold forwarded, basicWriter_Write, maybeWriteHeader,
    basicWriter_WriteHeader, http.response_Write, http.response_WriteHeader.
  destruct b as [[hd hw st inf bd] wrote cd n]. simpl. intros Hb.
  destruct wrote; simpl.
  - rewrite (Hb eq_refl). simpl.
    repeat case_match; simplify_eq; simpl; auto.
  - destruct hw; simpl; repeat case_match; simplify_eq; simpl; auto.
Qed.

Lemma Flush_forwarded b :
  inner (basicWriter_Flush b) = http.response_Flush (inner b)
  /\ forwarded (basicWriter_Flush b).
Proof.
  split; [reflexivity |].
  unfold forwarded, basicWriter_Flush, http.response_Flush,
    http.response_WriteHeader.
  simpl. intros _. destruct (http.wroteHeader (inner b)) eqn:Hin;
    [exact Hin | reflexivity].
Qed.

(** Running a handler against the wrapper does to the wrapped writer
    exactly what running it against that writer does, as long as the
    handler recovers from no [WriteHeader] panic. *)
Lemma perform_forwarded h :
  forall b mono,
    forwarded b ->
    recoversOnlyValidCodes h = true ->
    (inner (http.perform h b mono).1.1,
     (http.perform h b mono).1.2,
     (http.perform h b mono).2)
    = http.perform h (inner b) mono.
Proof.
  induction h as [| op k IH]; intros b mono Hb Hv; [reflexivity |].
  simpl in Hv. apply andb_prop in Hv. destruct Hv as [Hop Hk].
  destruct op as [c | c | buf | | ns | v]; simpl.
  - destruct (WriteHeader_forwarded c b Hb) as [Heq Hnext].
    destruct (basicWriter_WriteHeader c b) as [b' p].
    simpl in Heq, Hnext. rewrite <- Heq.
    destruct p as [v |]; [reflexivity |].
    apply IH; [apply Hnext; reflexivity | exact Hk].
  - destruct (WriteHeader_forwarded c b Hb) as [Heq Hnext].
    pose proof (response_WriteHeader_valid c (inner b) Hop) as Hnone.
    destruct (basicWriter_WriteHeader c b) as [b' p].
    simpl in Heq, Hnext. rewrite <- Heq in *. simpl in Hnone |- *.
    apply IH; [apply Hnext; exact Hnone | exact Hk].
  - destruct (Write_forwarded buf b Hb) as [Heq Hnext].
    destruct (basicWriter_Write buf b) as [b' n].
    simpl in Heq, Hnext. rewrite <- Heq. simpl.
    apply IH; assumption.
  - destruct (Flush_forwarded b) as [Heq Hnext].
    rewrite <- Heq. apply IH; assumption.
  - apply IH; assumption.
  - reflexivity.
Qed.

(** A handler only moves the clock forward. *)
Lemma perform_clock {W} `{http.ResponseWriter W} h :
  forall (w : W) mono, mono <= (http.perform h w mono).1.2.
Proof.
  induction h as [| op k IH]; intros w mono; [simpl; lia |].
  destruct op as [c | c | buf | | ns | v]; simpl.
  - destruct (http.WriteHeader c w) as [w' [v |]]; [simpl; lia | apply IH].
  - apply IH.
  - apply IH.
  - apply IH.
  - etransitivity; [| apply IH]. lia.
  - lia.
Qed.

End WrapperFacts.

(** ** What one traced request does *)

Section Handling.

Lemma alter_snoc {A} (f : A -> A) (l : list A) (x : A) :
  alter f (length l) (l ++ [x]) = l ++ [f x].
Proof.
  rewrite alter_app_r_alt by lia. rewrite Nat.sub_diag. reflexivity.
Qed.

Lemma serve_body t next w r st :
  (let start := time.Now (mono st) in
   let '(ctx, span, st1) := otel.Start t (http.Context r) (spanName r) st in
   let st2 := otel.SetAttributes span (requestAttributes r) st1 in
   let ww := middleware.NewWrapResponseWriter w (http.ProtoMajor r) in
   let '(ww, now, p) :=
     http.ServeHTTP next ww (http.WithContext r ctx) (mono st2) in
   let st3 := set_mono now st2 in
   match p with
   | Some v => (middleware.Unwrap ww, Some v, otel.End span st3)
   | None =>
       let st4 :=
         otel.SetAttributes span
           [attribute.Int semconv.HTTPStatusCodeKey (middleware.Status ww);
            attribute.Float64 "http.duration_ms"
              (float64.of_int64
                 (time.Milliseconds (time.Since start (mono st3))))]
           st3 in
       (middleware.Unwrap ww, None, otel.End span st4)
   end) = handled t next w r st.
Proof.
  unfold handled, finishedSpan, wrappedRun, traced, otel.Start,
    otel.SetAttributes, otel.End, set_spans, set_mono, middleware.Unwrap.
  simpl.
  destruct (http.ServeHTTP next
              (middleware.NewWrapResponseWriter w (http.ProtoMajor r))
              (http.WithContext r
                 {| context.reqID := context.reqID (http.Context r);
                    context.span := Some (length (spans st)) |})
              (mono st)) as [[ww now] p].
  simpl.
  destruct p as [v |]; simpl;
    rewrite ?alter_snoc; unfold trace.Span_SetAttributes, trace.IsRecording;
    simpl; destruct (otel.backing t st); simpl;
    rewrite ?alter_snoc; simpl; rewrite ?alter_snoc; reflexivity.
Qed.

Lemma Jaeger_serve m w r st :
  Jaeger.serve m w r st = handled (Jaeger.tracer m) (Jaeger.next m) w r st.
Proof. apply serve_body. Qed.

Lemma OTLP_serve m w r st :
  OTLP.serve m w r st
  = handled (otel.Tracer (serviceName st) st) (OTLP.next m) w r st.
Proof. apply serve_body. Qed.

End Handling.

(** ** Both variants *)

Section BothVariants.

Lemma append_cancel_l (p a b : string) :
  (p ++ a)%string = (p ++ b)%string -> a = b.
Proof.
  induction p as [| c p IH]; intros H; [exact H |].
  apply IH. change (String c (p ++ a) = String c (p ++ b))%string in H.
  injection H. auto.
Qed.

Lemma serve_handled v w r st :
  serve v w r st = handled (tracerOf v st) (nextOf v) w r st.
Proof. destruct v as [m | m]; [apply Jaeger_serve | apply OTLP_serve]. Qed.

Lemma handled_requestSpan t next w r st :
  requestSpan st (handled t next w r st)
  = Some (finishedSpan t r st
            (wrappedRun next w r st).1.1
            (wrappedRun next w r st).1.2
            (wrappedRun next w r st).2).
Proof. unfold requestSpan, handled. simpl. apply list_lookup_middle. reflexivity. Qed.

Lemma handled_response t next w r st :
  recoversOnlyValidCodes (next (traced r st)) = true ->
  (handled t next w r st).1 = unwrapped next w (traced r st) st.
Proof.
  intros Hv. unfold handled, unwrapped, wrappedRun, http.ServeHTTP. simpl.
  pose proof (perform_forwarded (next (traced r st))
                (middleware.NewWrapResponseWriter w (http.ProtoMajor r))
                (mono st) (forwarded_new w (http.ProtoMajor r)) Hv) as H.
  simpl in H. rewrite <- H. reflexivity.
Qed.

Lemma wrappedRun_clock next w r st :
  mono st <= (wrappedRun next w r st).1.2.
Proof. unfold wrappedRun, http.ServeHTTP. apply perform_clock. Qed.

Lemma handled_frame t next w r st :
  providers (handled t next w r st).2 = providers st
  /\ installed (handled t next w r st).2 = installed st
  /\ serviceName (handled t next w r st).2 = serviceName st.
Proof. unfold handled. simpl. auto. Qed.

End BothVariants.

(** ** The claims about the middleware *)

(** C1. Every request served through either middleware, whatever the
    wrapped handler does (returns, panics, writes no status), adds exactly
    one span to the store, leaves the earlier spans as they were, and that
    span has had [End] called on it exactly once. *)
Theorem span_started_and_ended_once :
  forall (v : Installed) (w : http.response) (r : http.Request) (st : World),
  exists s : trace.Span,
    spans (serve v w r st).2 = spans st ++ [s]
    /\ trace.endCalls s = 1%nat.
Proof.
  intros v w r st. rewrite serve_handled. unfold handled. simpl.
  eexists. split; reflexivity.
Qed.

(** C3. The span of a request is named by the method, one space and the
    URL path (the query string is no part of it), and requests with the
    same method and different paths get different span names. *)
Theorem span_name_is_method_and_path :
  forall (v : Installed) (w : http.response) (r : http.Request) (st : World),
  exists s : trace.Span,
    requestSpan st (serve v w r st) = Some s
    /\ trace.name s = (http.Method r ++ " " ++ url.Path (http.URL r))%string
    /\ forall (v' : Installed) (w' : http.response) (r' : http.Request)
              (st' : World) (s' : trace.Span),
         requestSpan st' (serve v' w' r' st') = Some s' ->
         http.Method r' = http.Method r ->
         url.Path (http.URL r') <> url.Path (http.URL r) ->
         trace.name s' <> trace.name s.
Proof.
  intros v w r st. rewrite serve_handled, handled_requestSpan.
  eexists. split; [reflexivity |]. split; [reflexivity |].
  intros v' w' r' st' s'. rewrite serve_handled, handled_requestSpan.
  intros [= <-] Hm Hp. simpl. unfold spanName. rewrite Hm.
  intros Heq. apply Hp.
  apply append_cancel_l in Heq. apply append_cancel_l in Heq. exact Heq.
Qed.

(** The spec's example request and one for [/orders/43]. *)
Lemma span_name_is_method_and_path_witness :
  exists s s' : trace.Span,
    requestSpan exampleWorld
      (serve (exampleMiddleware (always [])) http.newResponse exampleRequest exampleWorld)
      = Some s
    /\ requestSpan exampleWorld
         (serve (exampleMiddleware (always [])) http.newResponse otherRequest exampleWorld)
       = Some s'
    /\ trace.name s = "GET /orders/42"%string
    /\ trace.name s' <> trace.name s.
Proof.
  destruct (span_name_is_method_and_path (exampleMiddleware (always []))
              http.newResponse exampleRequest exampleWorld)
    as (s & Hs & Hname & Hdistinct).
  destruct (span_name_is_method_and_path (exampleMiddleware (always []))
              http.newResponse otherRequest exampleWorld)
    as (s' & Hs' & _ & _).
  exists s, s'. split; [exact Hs |]. split; [exact Hs' |].
  split; [exact Hname |].
  apply (Hdistinct (exampleMiddleware (always [])) http.newResponse otherRequest
           exampleWorld s' Hs').
  - reflexivity.
  - simpl. discriminate.
Defined.

(** C8 (amended). The middleware raises no error of its own: the panic
    that leaves it is the wrapped handler's.  As long as the handler does
    not carry on after recovering from a [WriteHeader] panic (an invalid
    status code), what the client is sent (status, informational headers,
    body) is what the wrapped handler produces when it is called directly,
    on the same writer, with the request the middleware hands it: the
    original request with the span's context, and so the original request
    for a handler that does the same with either. *)
Theorem middleware_leaves_response_unchanged :
  forall (v : Installed) (w : http.response) (r : http.Request) (st : World),
    recoversOnlyValidCodes (nextOf v (traced r st)) = true ->
    (serve v w r st).1 = unwrapped (nextOf v) w (traced r st) st
    /\ (serve v w r st).1.2
       = (http.ServeHTTP (nextOf v)
            (middleware.NewWrapResponseWriter w (http.ProtoMajor r))
            (http.WithContext r
               {| context.reqID := context.reqID (http.Context r);
                  context.span := Some (length (spans st)) |})
            (mono st)).2
    /\ (nextOf v (traced r st) = nextOf v r ->
        (serve v w r st).1 = unwrapped (nextOf v) w r st).
Proof.
  intros v w r st Hv. rewrite serve_handled.
  split; [apply handled_response; exact Hv |].
  split; [reflexivity |].
  intros Hsame. rewrite handled_response by exact Hv.
  unfold unwrapped, http.ServeHTTP. rewrite Hsame. reflexivity.
Qed.

(** The example request with a handler that writes 404 and a body. *)
Lemma middleware_leaves_response_unchanged_witness :
  (serve
     (exampleMiddleware
        (always [http.OpWriteHeader 404; http.OpFlush;
                 http.OpWrite [x6e%byte; x6f%byte]]))
     http.newResponse exampleRequest exampleWorld).1
  = unwrapped
      (always [http.OpWriteHeader 404; http.OpFlush;
               http.OpWrite [x6e%byte; x6f%byte]])
      http.newResponse exampleRequest exampleWorld.
Proof.
  destruct (middleware_leaves_response_unchanged
              (exampleMiddleware
                 (always [http.OpWriteHeader 404; http.OpFlush;
                          http.OpWrite [x6e%byte; x6f%byte]]))
              http.newResponse exampleRequest exampleWorld eq_refl)
    as (_ & _ & Hsame).
  apply Hsame. reflexivity.
Defined.

(** C8, as stated, fails in two ways.  A handler that recovers from the
    panic of [WriteHeader(42)] and then writes status 500 sends the client
    500 without the middleware and 200 with it: the wrapper has taken 42
    for the status written and drops the later call.  And a handler that
    looks for a span in its context answers differently once the
    middleware has put one there. *)
Lemma middleware_changes_response :
  let recovering :=
    always [http.OpRecoveredWriteHeader 42; http.OpWriteHeader 500] in
  let spanAware : http.Handler :=
    fun r => match context.span (http.Context r) with
             | Some _ => [http.OpWriteHeader 204]
             | None => [http.OpWriteHeader 200]
             end in
  http.clientStatus
    (unwrapped recovering http.newResponse exampleRequest exampleWorld).1 = 500
  /\ http.clientStatus
       (serve (exampleMiddleware recovering) http.newResponse exampleRequest
          exampleWorld).1.1 = 200
  /\ (serve (exampleMiddleware recovering) http.newResponse exampleRequest
        exampleWorld).1.2 = None
  /\ http.clientStatus
       (unwrapped spanAware http.newResponse exampleRequest exampleWorld).1
     = 200
  /\ http.clientStatus
       (serve (exampleMiddleware spanAware) http.newResponse exampleRequest
          exampleWorld).1.1 = 204.
Proof. vm_compute. repeat split. Qed.

(** C9. When the wrapped handler panics, the panic leaves the middleware,
    and the deferred call has still ended the span, once;
    [http.status_code] and [http.duration_ms] are not on it, and a recorded
    span carries exactly the four attributes set before the handler ran. *)
Theorem panicking_handler_span :
  forall (v : Installed) (w : http.response) (r : http.Request) (st : World),
    (http.ServeHTTP (nextOf v)
       (middleware.NewWrapResponseWriter w (http.ProtoMajor r))
       (http.WithContext r
          {| context.reqID := context.reqID (http.Context r);
             context.span := Some (length (spans st)) |})
       (mono st)).2 <> None ->
    exists s : trace.Span,
      requestSpan st (serve v w r st) = Some s
      /\ (serve v w r st).1.2 <> None
      /\ trace.endCalls s = 1%nat
      /\ attribute.lookup semconv.HTTPStatusCodeKey (trace.attributes s) = None
      /\ attribute.lookup "http.duration_ms" (trace.attributes s) = None
      /\ (recording v st ->
          trace.attributes s =
            [("http.method"%string, attribute.STRING (http.Method r));
             ("http.target"%string, attribute.STRING (url.Path (http.URL r)));
             ("http.request_id"%string,
               attribute.STRING (middleware.GetReqID (http.Context r)));
             ("http.client_ip"%string, attribute.STRING (http.RemoteAddr r))]).
Proof.
  intros v w r st. rewrite serve_handled, handled_requestSpan.
  unfold handled, recording, wrappedRun, traced. simpl. intros Hpanic.
  eexists. split; [reflexivity |]. split; [exact Hpanic |].
  split; [reflexivity |].
  destruct (http.ServeHTTP (nextOf v)
              (middleware.NewWrapResponseWriter w (http.ProtoMajor r))
              (http.WithContext r
                 {| context.reqID := context.reqID (http.Context r);
                    context.span := Some (length (spans st)) |})
              (mono st)) as [[ww now] [pv |]]; [| contradiction].
  simpl. destruct (otel.backing (tracerOf v st) st) as [p |]; simpl.
  - repeat split; reflexivity.
  - repeat split; try reflexivity. intros [p Hp]. discriminate.
Qed.

(** The example request through the Jaeger middleware with a handler that
    panics at once, and through the OTLP middleware with a handler whose
    [WriteHeader(42)] panics. *)
Lemma panicking_handler_span_witness :
  (exists s : trace.Span,
      requestSpan exampleWorld
        (serve (exampleMiddleware (always [http.OpPanic "boom"]))
           http.newResponse exampleRequest exampleWorld) = Some s
      /\ trace.endCalls s = 1%nat
      /\ trace.attributes s =
           [("http.method"%string, attribute.STRING "GET");
            ("http.target"%string, attribute.STRING "/orders/42");
            ("http.request_id"%string, attribute.STRING "abc-123");
            ("http.client_ip"%string, attribute.STRING "10.0.0.5:1234")])
  /\ (exists s : trace.Span,
        requestSpan exampleWorld
          (serve (ViaOTLP (OTLP.HTTPMiddleware
                             (always [http.OpElapse 1000%N;
                                      http.OpWriteHeader 42])))
             http.newResponse exampleRequest exampleWorld) = Some s
        /\ trace.endCalls s = 1%nat
        /\ trace.attributes s =
             [("http.method"%string, attribute.STRING "GET");
              ("http.target"%string, attribute.STRING "/orders/42");
              ("http.request_id"%string, attribute.STRING "abc-123");
              ("http.client_ip"%string, attribute.STRING "10.0.0.5:1234")]).
Proof.
  split.
  - destruct (panicking_handler_span
                (exampleMiddleware (always [http.OpPanic "boom"]))
                http.newResponse exampleRequest exampleWorld)
      as (s & Hs & _ & Hend & _ & _ & Hattrs).
    + vm_compute. discriminate.
    + exists s. split; [exact Hs |]. split; [exact Hend |].
      apply Hattrs. vm_compute. eexists. reflexivity.
  - destruct (panicking_handler_span
                (ViaOTLP (OTLP.HTTPMiddleware
                            (always [http.OpElapse 1000%N;
                                     http.OpWriteHeader 42])))
                http.newResponse exampleRequest exampleWorld)
      as (s & Hs & _ & Hend & _ & _ & Hattrs).
    + vm_compute. discriminate.
    + exists s. split; [exact Hs |]. split; [exact Hend |].
      apply Hattrs. vm_compute. eexists. reflexivity.
Defined.

(** C2. The code misses the case it means to cover: the middleware records
    [ww.Status()] as the status written, but chi's wrapper reports 0 until
    a status has gone through its [WriteHeader] or [Write].  A handler that
    returns without writing leaves [http.status_code = 0] on the span while
    the client is sent 200; so does a handler that flushes before it
    writes a body, although 200 and the body were sent. *)
Lemma status_code_unset_recorded_as_zero :
  let silent :=
    serve (exampleMiddleware (always [])) http.newResponse exampleRequest
      exampleWorld in
  let flushing :=
    serve (exampleMiddleware (always [http.OpFlush; http.OpWrite [x6f%byte]]))
      http.newResponse exampleRequest exampleWorld in
  silent.1.2 = None
  /\ http.wroteHeader silent.1.1 = false
  /\ http.clientStatus silent.1.1 = 200
  /\ recorded semconv.HTTPStatusCodeKey exampleWorld silent
     = Some (attribute.INT64 0)
  /\ flushing.1.2 = None
  /\ http.wroteHeader flushing.1.1 = true
  /\ http.status flushing.1.1 = 200
  /\ http.body flushing.1.1 = [x6f%byte]
  /\ recorded semconv.HTTPStatusCodeKey exampleWorld flushing
     = Some (attribute.INT64 0).
Proof. vm_compute. repeat split. Qed.

(** C7. [http.duration_ms] on a recorded span of a request whose handler
    returned is the elapsed monotonic time between the middleware's entry
    and the handler's return, in whole milliseconds (cut off at the
    largest duration): it is never negative, and a request that took
    longer never records a smaller value. *)
Theorem duration_ms_nonneg_monotone :
  forall (v1 v2 : Installed) (w1 w2 : http.response) (r1 r2 : http.Request)
         (st1 st2 : World),
    recording v1 st1 -> recording v2 st2 ->
    (serve v1 w1 r1 st1).1.2 = None ->
    (serve v2 w2 r2 st2).1.2 = None ->
    Go.in_int64 (mono st1) -> Go.in_int64 (mono (serve v1 w1 r1 st1).2) ->
    Go.in_int64 (mono st2) -> Go.in_int64 (mono (serve v2 w2 r2 st2).2) ->
    mono (serve v1 w1 r1 st1).2 - mono st1
      <= mono (serve v2 w2 r2 st2).2 - mono st2 ->
    exists d1 d2 : Z,
      recorded "http.duration_ms" st1 (serve v1 w1 r1 st1)
        = Some (attribute.FLOAT64 d1)
      /\ recorded "http.duration_ms" st2 (serve v2 w2 r2 st2)
         = Some (attribute.FLOAT64 d2)
      /\ d1 = Z.quot (Z.min (mono (serve v1 w1 r1 st1).2 - mono st1)
                        time.maxDuration) 1000000
      /\ d2 = Z.quot (Z.min (mono (serve v2 w2 r2 st2).2 - mono st2)
                        time.maxDuration) 1000000
      /\ 0 <= d1 /\ d1 <= d2.
Proof.
  intros v1 v2 w1 w2 r1 r2 st1 st2 [p1 Hrec1] [p2 Hrec2].
  rewrite !serve_handled. unfold recorded. rewrite !handled_requestSpan.
  unfold handled, finishedSpan. simpl. rewrite Hrec1, Hrec2.
  pose proof (wrappedRun_clock (nextOf v1) w1 r1 st1) as Hclock1.
  pose proof (wrappedRun_clock (nextOf v2) w2 r2 st2) as Hclock2.
  destruct (wrappedRun (nextOf v1) w1 r1 st1) as [[ww1 now1] [pv1 |]]; simpl;
    [discriminate |].
  destruct (wrappedRun (nextOf v2) w2 r2 st2) as [[ww2 now2] [pv2 |]]; simpl;
    [discriminate |].
  simpl in Hclock1, Hclock2.
  intros _ _ Hs1 Hn1 Hs2 Hn2 Hle.
  exists (durationMs (mono st1) now1), (durationMs (mono st2) now2).
  split; [reflexivity |]. split; [reflexivity |].
  split; [apply durationMs_later; assumption |].
  split; [apply durationMs_later; assumption |].
  split; [apply durationMs_nonneg; assumption |].
  apply durationMs_mono; assumption.
Qed.

(** A request that takes 2.5 ms records 2, one that takes 7.999999 ms
    records 7. *)
Lemma duration_ms_nonneg_monotone_witness :
  exists d1 d2 : Z,
    recorded "http.duration_ms" exampleWorld
      (serve (exampleMiddleware (always [http.OpElapse 2500000%N; http.OpWriteHeader 404]))
         http.newResponse exampleRequest exampleWorld)
      = Some (attribute.FLOAT64 d1)
    /\ recorded "http.duration_ms" exampleWorld
         (serve (exampleMiddleware (always [http.OpElapse 7999999%N]))
            http.newResponse otherRequest exampleWorld)
       = Some (attribute.FLOAT64 d2)
    /\ d1 = 2 /\ d2 = 7 /\ 0 <= d1 /\ d1 <= d2.
Proof.
  apply (duration_ms_nonneg_monotone
           (exampleMiddleware (always [http.OpElapse 2500000%N; http.OpWriteHeader 404]))
           (exampleMiddleware (always [http.OpElapse 7999999%N]))
           http.newResponse http.newResponse exampleRequest otherRequest
           exampleWorld exampleWorld).
  - vm_compute. eexists. reflexivity.
  - vm_compute. eexists. reflexivity.
  - reflexivity.
  - reflexivity.
  - vm_compute. split; discriminate.
  - vm_compute. split; discriminate.
  - vm_compute. split; discriminate.
  - vm_compute. split; discriminate.
  - vm_compute. discriminate.
Defined.

(** ** The claims about [InitTracer] *)

Section InitTracerFacts.
Import Go.
Variables (exporter_err resource_err : string -> option error).

Lemma Jaeger_InitTracer_ok svc url st :
  exporter_err url = None -> resource_err svc = None ->
  Jaeger.InitTracer exporter_err resource_err svc url st
  = (Return (provider_Shutdown (length (providers st))),
     registered
       {| sdk.transport := sdk.JaegerCollector; sdk.endpoint := url;
          sdk.insecure := false |}
       (sdk.resource_WithAttributes
          [attribute.String semconv.ServiceNameKey svc]) st).
Proof.
  intros He Hr. unfold Jaeger.InitTracer, Jaeger.jaeger_New, Jaeger.resource_New.
  rewrite He, Hr. reflexivity.
Qed.

Lemma Jaeger_InitTracer_fail svc url st :
  exporter_err url <> None \/ resource_err svc <> None ->
  exists v, Jaeger.InitTracer exporter_err resource_err svc url st
            = (Panicking v, st).
Proof.
  intros Hfail. unfold Jaeger.InitTracer, Jaeger.jaeger_New, Jaeger.resource_New.
  destruct (exporter_err url) as [e |]; [eexists; reflexivity |].
  destruct (resource_err svc) as [e |]; [eexists; reflexivity |].
  destruct Hfail as [H | H]; contradiction.
Qed.

Lemma OTLP_InitTracer_ok svc url st :
  exporter_err url = None -> resource_err svc = None ->
  OTLP.InitTracer exporter_err resource_err svc url st
  = (Return (provider_Shutdown (length (providers st))),
     registered
       {| sdk.transport := sdk.OTLPHTTP; sdk.endpoint := url;
          sdk.insecure := true |}
       (sdk.resource_WithAttributes
          [attribute.String semconv.ServiceNameKey svc])
       (set_serviceName svc st)).
Proof.
  intros He Hr.
  unfold OTLP.InitTracer, OTLP.otlptracehttp_New, OTLP.resource_New.
  unfold mbind, M_bind, bind. simpl. rewrite He, Hr. reflexivity.
Qed.

Lemma OTLP_InitTracer_fail svc url st :
  exporter_err url <> None \/ resource_err svc <> None ->
  exists v, OTLP.InitTracer exporter_err resource_err svc url st
            = (Panicking v, set_serviceName svc st).
Proof.
  intros Hfail.
  unfold OTLP.InitTracer, OTLP.otlptracehttp_New, OTLP.resource_New.
  unfold mbind, M_bind, bind. simpl.
  destruct (exporter_err url) as [e |]; [eexists; reflexivity |].
  destruct (resource_err svc) as [e |]; [eexists; reflexivity |].
  destruct Hfail as [H | H]; contradiction.
Qed.

End InitTracerFacts.

(** C4. When the exporter or the resource cannot be constructed,
    [InitTracer] panics: it returns no shutdown function, no provider is
    constructed or registered, and the state is the one before the call
    (in the OTLP variant with the package variable [serviceName] already
    set). *)
Theorem InitTracer_aborts_on_failure :
  forall (exporter_err resource_err : string -> option Go.error)
         (svc endpoint : string) (st : World),
    exporter_err endpoint <> None \/ resource_err svc <> None ->
    (exists v, Jaeger.InitTracer exporter_err resource_err svc endpoint st
               = (Panicking v, st))
    /\ (exists v, OTLP.InitTracer exporter_err resource_err svc endpoint st
                  = (Panicking v, set_serviceName svc st)).
Proof.
  intros exporter_err resource_err svc endpoint st Hfail. split.
  - apply Jaeger_InitTracer_fail. exact Hfail.
  - apply OTLP_InitTracer_fail. exact Hfail.
Qed.

(** An exporter constructor that rejects its endpoint. *)
Lemma InitTracer_aborts_on_failure_witness :
  (exists v, Jaeger.InitTracer rejects succeeds "orders" "collector:4318"
               (initialWorld 1)
             = (Panicking v, initialWorld 1))
  /\ (exists v, OTLP.InitTracer rejects succeeds "orders" "collector:4318"
                  (initialWorld 1)
                = (Panicking v, set_serviceName "orders" (initialWorld 1))).
Proof.
  apply (InitTracer_aborts_on_failure rejects succeeds "orders"
           "collector:4318" (initialWorld 1)).
  left. vm_compute. discriminate.
Defined.

Section RegistryFacts.

Lemma registered_global e r st :
  otel.globalProvider (registered e r st) = Some (length (providers st)).
Proof. reflexivity. Qed.

Lemma registered_lookup e r st :
  providers (registered e r st) !! length (providers st)
  = Some {| sdk.exporter := e; sdk.resource := r |}.
Proof. unfold registered. simpl. apply list_lookup_middle. reflexivity. Qed.

Lemma Tracer_global n st p :
  otel.globalProvider st = Some p ->
  otel.Tracer n st = trace.ProviderTracer p (sdk.tracerNameFor n).
Proof. intros H. unfold otel.Tracer. rewrite H. reflexivity. Qed.

(** A request served by a tracer that provider [p] backs leaves a span
    carrying that provider's resource. *)
Lemma handled_resource t next w r st p P :
  otel.backing t st = Some p ->
  providers st !! p = Some P ->
  exists s,
    requestSpan st (handled t next w r st) = Some s
    /\ spanResource (handled t next w r st).2 s = Some (sdk.resource P)
    /\ trace.tracer s = t.
Proof.
  intros Hb HP. rewrite handled_requestSpan. eexists.
  split; [reflexivity |].
  unfold spanResource, finishedSpan, handled. simpl.
  rewrite Hb, HP. split; reflexivity.
Qed.

(** Two requests that differ only in the provider behind their tracers
    get the same response and spans with the same name and attributes. *)
Lemma handled_agree t t' next w r st st' p p' :
  mono st = mono st' ->
  length (spans st) = length (spans st') ->
  otel.backing t st = Some p ->
  otel.backing t' st' = Some p' ->
  (handled t next w r st).1 = (handled t' next w r st').1
  /\ exists s s',
       requestSpan st (handled t next w r st) = Some s
       /\ requestSpan st' (handled t' next w r st') = Some s'
       /\ trace.name s = trace.name s'
       /\ trace.attributes s = trace.attributes s'
       /\ trace.endCalls s = trace.endCalls s'.
Proof.
  intros Hm Hl Hb Hb'.
  assert (wrappedRun next w r st = wrappedRun next w r st') as Hrun.
  { unfold wrappedRun, traced. rewrite Hm, Hl. reflexivity. }
  rewrite !handled_requestSpan. unfold handled. simpl. rewrite Hrun.
  split; [reflexivity |]. eexists. eexists.
  split; [reflexivity |]. split; [reflexivity |].
  unfold finishedSpan. simpl. rewrite Hb, Hb', Hm. repeat split.
Qed.

(** Two requests that differ only in the tracer that starts their spans,
    both tracers backed by a provider or neither, get the same response and
    spans with the same name and attributes. *)
Lemma handled_alike t t' next w r st st' :
  mono st = mono st' ->
  length (spans st) = length (spans st') ->
  (is_Some (otel.backing t st) <-> is_Some (otel.backing t' st')) ->
  (handled t next w r st).1 = (handled t' next w r st').1
  /\ exists s s',
       requestSpan st (handled t next w r st) = Some s
       /\ requestSpan st' (handled t' next w r st') = Some s'
       /\ trace.name s = trace.name s'
       /\ trace.attributes s = trace.attributes s'
       /\ trace.endCalls s = trace.endCalls s'.
Proof.
  intros Hm Hl Hboth.
  assert (wrappedRun next w r st = wrappedRun next w r st') as Hrun.
  { unfold wrappedRun, traced. rewrite Hm, Hl. reflexivity. }
  rewrite !handled_requestSpan. unfold handled. simpl. rewrite Hrun.
  split; [reflexivity |]. eexists. eexists.
  split; [reflexivity |]. split; [reflexivity |].
  unfold finishedSpan. simpl. rewrite Hm.
  destruct (otel.backing t st) as [p |], (otel.backing t' st') as [p' |];
    simpl; try (repeat split; fail).
  - exfalso. destruct Hboth as [H _].
    destruct (H (ex_intro _ p eq_refl)) as [x Hx]. discriminate.
  - exfalso. destruct Hboth as [_ H].
    destruct (H (ex_intro _ p' eq_refl)) as [x Hx]. discriminate.
Qed.

Lemma StartSpan_resource ctx n st p P :
  otel.globalProvider st = Some p ->
  providers st !! p = Some P ->
  exists s,
    spans (OTLP.StartSpan ctx n st).2 !! (OTLP.StartSpan ctx n st).1.2 = Some s
    /\ spanResource (OTLP.StartSpan ctx n st).2 s = Some (sdk.resource P).
Proof.
  intros Hg HP. unfold OTLP.StartSpan, otel.Start. simpl.
  rewrite (Tracer_global _ _ _ Hg). simpl.
  eexists. split; [apply list_lookup_middle; reflexivity |].
  unfold spanResource. simpl. rewrite HP. reflexivity.
Qed.

End RegistryFacts.

Section ServiceNameFacts.

Lemma serviceName_of_resource (e : sdk.Exporter) (svc : string) :
  attribute.lookup semconv.ServiceNameKey
    (sdk.attributes
       (sdk.resource
          {| sdk.exporter := e;
             sdk.resource :=
               sdk.resource_WithAttributes
                 [attribute.String semconv.ServiceNameKey svc] |}))
  = Some (attribute.STRING svc).
Proof. reflexivity. Qed.

Lemma spanServiceName_resource st s (P : sdk.TracerProvider) :
  spanResource st s = Some (sdk.resource P) ->
  spanServiceName st s = sdk.serviceNameOf P.
Proof. intros H. unfold spanServiceName, sdk.serviceNameOf. rewrite H. reflexivity. Qed.

(** In a state whose registry is that of [registered e r st], every
    request of either variant whose tracer was taken from the global
    provider leaves a span with the service name of [r]. *)
Lemma served_after_registered v w rq later e svc st :
  providers later = providers
    (registered e (sdk.resource_WithAttributes
                     [attribute.String semconv.ServiceNameKey svc]) st) ->
  otel.backing (tracerOf v later) later = Some (length (providers st)) ->
  exists s,
    requestSpan later (serve v w rq later) = Some s
    /\ spanServiceName (serve v w rq later).2 s = Some (attribute.STRING svc).
Proof.
  intros Hp Hb. rewrite serve_handled.
  destruct (handled_resource (tracerOf v later) (nextOf v) w rq later
              (length (providers st))
              {| sdk.exporter := e;
                 sdk.resource := sdk.resource_WithAttributes
                                   [attribute.String semconv.ServiceNameKey svc] |}
              Hb) as (s & Hs & Hres & _).
  { rewrite Hp. apply registered_lookup. }
  exists s. split; [exact Hs |].
  rewrite (spanServiceName_resource _ _ _ Hres). reflexivity.
Qed.

End ServiceNameFacts.

(** C5 (amended). Two calls of [InitTracer] leave the second call's
    provider registered globally.  Every span started from a tracer taken
    from the global provider after the second call carries the second
    call's service name: in the OTLP variant every span of [StartSpan] and
    of the middleware, in the Jaeger variant every span of a middleware
    built after the second call; and such a request gets the response and
    the span (name, attributes, service name) it gets after the second call
    alone. *)
Theorem InitTracer_twice_last_registered_wins :
  forall (jaeger_err otlp_err resource_err : string -> option Go.error)
         (svc1 url1 svc2 url2 : string) (st : World),
    jaeger_err url1 = None -> jaeger_err url2 = None ->
    otlp_err url1 = None -> otlp_err url2 = None ->
    resource_err svc1 = None -> resource_err svc2 = None ->
    let jst :=
      (Jaeger.InitTracer jaeger_err resource_err svc2 url2
         (Jaeger.InitTracer jaeger_err resource_err svc1 url1 st).2).2 in
    let ost :=
      (OTLP.InitTracer otlp_err resource_err svc2 url2
         (OTLP.InitTracer otlp_err resource_err svc1 url1 st).2).2 in
    let jalone := (Jaeger.InitTracer jaeger_err resource_err svc2 url2 st).2 in
    let oalone := (OTLP.InitTracer otlp_err resource_err svc2 url2 st).2 in
    (exists p P,
        otel.globalProvider jst = Some p /\ providers jst !! p = Some P
        /\ sdk.serviceNameOf P = Some (attribute.STRING svc2))
    /\ (exists p P,
          otel.globalProvider ost = Some p /\ providers ost !! p = Some P
          /\ sdk.serviceNameOf P = Some (attribute.STRING svc2))
    /\ (forall later ctx n,
          providers later = providers ost -> installed later = installed ost ->
          exists s,
            spans (OTLP.StartSpan ctx n later).2
              !! (OTLP.StartSpan ctx n later).1.2 = Some s
            /\ spanServiceName (OTLP.StartSpan ctx n later).2 s
               = Some (attribute.STRING svc2))
    /\ (forall later m w r,
          providers later = providers ost -> installed later = installed ost ->
          exists s,
            requestSpan later (OTLP.serve m w r later) = Some s
            /\ spanServiceName (OTLP.serve m w r later).2 s
               = Some (attribute.STRING svc2))
    /\ (forall built later next w r,
          installed built = installed jst -> providers later = providers jst ->
          exists s,
            requestSpan later
              (Jaeger.serve (Jaeger.Middleware next built) w r later) = Some s
            /\ spanServiceName
                 (Jaeger.serve (Jaeger.Middleware next built) w r later).2 s
               = Some (attribute.STRING svc2))
    /\ (forall m w r,
          (OTLP.serve m w r ost).1 = (OTLP.serve m w r oalone).1
          /\ exists s s',
               requestSpan ost (OTLP.serve m w r ost) = Some s
               /\ requestSpan oalone (OTLP.serve m w r oalone) = Some s'
               /\ trace.name s = trace.name s'
               /\ trace.attributes s = trace.attributes s'
               /\ trace.endCalls s = trace.endCalls s')
    /\ (forall next w r,
          (Jaeger.serve (Jaeger.Middleware next jst) w r jst).1
          = (Jaeger.serve (Jaeger.Middleware next jalone) w r jalone).1
          /\ exists s s',
               requestSpan jst
                 (Jaeger.serve (Jaeger.Middleware next jst) w r jst) = Some s
               /\ requestSpan jalone
                    (Jaeger.serve (Jaeger.Middleware next jalone) w r jalone)
                  = Some s'
               /\ trace.name s = trace.name s'
               /\ trace.attributes s = trace.attributes s'
               /\ trace.endCalls s = trace.endCalls s').
Proof.
  intros jaeger_err otlp_err resource_err svc1 url1 svc2 url2 st
    Hj1 Hj2 Ho1 Ho2 Hr1 Hr2 jst ost jalone oalone.
  subst jst ost jalone oalone.
  rewrite (Jaeger_InitTracer_ok _ _ svc1 url1 st Hj1 Hr1).
  rewrite (OTLP_InitTracer_ok _ _ svc1 url1 st Ho1 Hr1).
  rewrite !(Jaeger_InitTracer_ok _ _ svc2 url2 _ Hj2 Hr2).
  rewrite !(OTLP_InitTracer_ok _ _ svc2 url2 _ Ho2 Hr2).
  cbn [snd].
  repeat apply conj.
  - eexists. eexists. split; [apply registered_global |].
    split; [apply registered_lookup | reflexivity].
  - eexists. eexists. split; [apply registered_global |].
    split; [apply registered_lookup | reflexivity].
  - intros later ctx n Hp Hi.
    edestruct (StartSpan_resource ctx n later) as (s & Hs & Hres).
    { unfold otel.globalProvider. rewrite Hi. reflexivity. }
    { rewrite Hp. apply registered_lookup. }
    exists s. split; [exact Hs |].
    rewrite (spanServiceName_resource _ _ _ Hres). reflexivity.
  - intros later m w r Hp Hi.
    apply (served_after_registered (ViaOTLP m) w r later _ svc2 _ Hp).
    simpl. unfold otel.Tracer, otel.globalProvider. rewrite Hi. reflexivity.
  - intros built later next w r Hi Hp.
    apply (served_after_registered
             (ViaJaeger (Jaeger.Middleware next built)) w r later _ svc2 _ Hp).
    simpl. unfold otel.Tracer, otel.globalProvider. rewrite Hi. reflexivity.
  - intros m w r. rewrite !OTLP_serve.
    eapply handled_agree; reflexivity.
  - intros next w r. rewrite !Jaeger_serve.
    eapply handled_agree; reflexivity.
Qed.

(** The OTLP variant initialised as ["orders"], then as ["billing"]. *)
Lemma InitTracer_twice_last_registered_wins_witness :
  exists s : trace.Span,
    requestSpan
      (OTLP.InitTracer succeeds succeeds "billing" "collector:4318"
         (OTLP.InitTracer succeeds succeeds "orders" "collector:4318"
            (initialWorld 1)).2).2
      (OTLP.serve (OTLP.HTTPMiddleware (always [http.OpWriteHeader 204]))
         http.newResponse exampleRequest
         (OTLP.InitTracer succeeds succeeds "billing" "collector:4318"
            (OTLP.InitTracer succeeds succeeds "orders" "collector:4318"
               (initialWorld 1)).2).2)
    = Some s
    /\ spanServiceName
         (OTLP.serve (OTLP.HTTPMiddleware (always [http.OpWriteHeader 204]))
            http.newResponse exampleRequest
            (OTLP.InitTracer succeeds succeeds "billing" "collector:4318"
               (OTLP.InitTracer succeeds succeeds "orders" "collector:4318"
                  (initialWorld 1)).2).2).2 s
       = Some (attribute.STRING "billing").
Proof.
  destruct (InitTracer_twice_last_registered_wins succeeds succeeds succeeds
              "orders" "collector:4318" "billing" "collector:4318"
              (initialWorld 1)
              eq_refl eq_refl eq_refl eq_refl eq_refl eq_refl)
    as (_ & _ & _ & Hserve & _).
  apply Hserve; reflexivity.
Defined.

(** C5, as stated, fails in the Jaeger variant: a middleware built after
    the first call and before the second keeps the tracer it took from the
    first provider, and the spans it starts after the second call still
    carry the first call's service name. *)
Lemma InitTracer_twice_captured_tracer :
  let st1 := (Jaeger.InitTracer succeeds succeeds "orders"
                "http://jaeger:14268/api/traces" (initialWorld 1)).2 in
  let m := Jaeger.Middleware (always [http.OpWriteHeader 204]) st1 in
  let st2 := (Jaeger.InitTracer succeeds succeeds "billing"
                "http://jaeger:14268/api/traces" st1).2 in
  let res := Jaeger.serve m http.newResponse exampleRequest st2 in
  exists (p : nat) (P : sdk.TracerProvider) (s : trace.Span),
    otel.globalProvider st2 = Some p
    /\ providers st2 !! p = Some P
    /\ sdk.serviceNameOf P = Some (attribute.STRING "billing")
    /\ requestSpan st2 res = Some s
    /\ spanServiceName res.2 s = Some (attribute.STRING "orders")
    /\ spanServiceName res.2 s <> Some (attribute.STRING "billing").
Proof.
  vm_compute. do 3 eexists.
  split; [reflexivity |]. split; [reflexivity |]. split; [reflexivity |].
  split; [reflexivity |]. split; [reflexivity | discriminate].
Qed.

(** C6 (amended). The variants differ in the exporter transport and in
    the tracer that starts the spans: the Jaeger middleware takes the tracer
    named ["http-server"] once, when it is built, the OTLP middleware takes
    the tracer named by the service name at every request.  Initialised
    with the same service name and endpoint in the same state, both return
    the shutdown function of, and register, providers with the same
    resource and endpoint.  A request served by the two middlewares, both
    backed by a provider or neither, gets the same response and spans with
    the same name and attributes; the spans also carry the same resource
    when the Jaeger middleware was built after the call of [InitTracer]. *)
Theorem variants_agree :
  forall (jaeger_err otlp_err resource_err : string -> option Go.error)
         (svc endpoint : string) (next : http.Handler)
         (w : http.response) (r : http.Request) (st : World),
    jaeger_err endpoint = None -> otlp_err endpoint = None ->
    resource_err svc = None ->
    let jinit := Jaeger.InitTracer jaeger_err resource_err svc endpoint st in
    let oinit := OTLP.InitTracer otlp_err resource_err svc endpoint st in
    (exists p JP OP,
        jinit.1 = Return (provider_Shutdown p)
        /\ oinit.1 = Return (provider_Shutdown p)
        /\ otel.globalProvider jinit.2 = Some p
        /\ otel.globalProvider oinit.2 = Some p
        /\ providers jinit.2 !! p = Some JP
        /\ providers oinit.2 !! p = Some OP
        /\ sdk.resource JP = sdk.resource OP
        /\ sdk.endpoint (sdk.exporter JP) = sdk.endpoint (sdk.exporter OP)
        /\ sdk.serviceNameOf JP = Some (attribute.STRING svc))
    /\ (forall built jst ost : World,
          mono jst = mono ost ->
          length (spans jst) = length (spans ost) ->
          (is_Some (otel.backing (Jaeger.tracer (Jaeger.Middleware next built))
                      jst)
           <-> is_Some (otel.globalProvider ost)) ->
          (Jaeger.serve (Jaeger.Middleware next built) w r jst).1
          = (OTLP.serve (OTLP.HTTPMiddleware next) w r ost).1
          /\ exists js os,
               requestSpan jst
                 (Jaeger.serve (Jaeger.Middleware next built) w r jst) = Some js
               /\ requestSpan ost
                    (OTLP.serve (OTLP.HTTPMiddleware next) w r ost) = Some os
               /\ trace.name js = trace.name os
               /\ trace.attributes js = trace.attributes os
               /\ trace.endCalls js = trace.endCalls os)
    /\ (exists js os,
          requestSpan jinit.2
            (Jaeger.serve (Jaeger.Middleware next jinit.2) w r jinit.2) = Some js
          /\ requestSpan oinit.2
               (OTLP.serve (OTLP.HTTPMiddleware next) w r oinit.2) = Some os
          /\ spanResource
               (Jaeger.serve (Jaeger.Middleware next jinit.2) w r jinit.2).2 js
             = spanResource
                 (OTLP.serve (OTLP.HTTPMiddleware next) w r oinit.2).2 os
          /\ spanServiceName
               (Jaeger.serve (Jaeger.Middleware next jinit.2) w r jinit.2).2 js
             = Some (attribute.STRING svc)).
Proof.
  intros jaeger_err otlp_err resource_err svc endpoint next w r st
    Hj Ho Hr jinit oinit.
  subst jinit oinit.
  rewrite (Jaeger_InitTracer_ok _ _ svc endpoint st Hj Hr).
  rewrite (OTLP_InitTracer_ok _ _ svc endpoint st Ho Hr).
  cbn [fst snd]. split; [| split].
  - do 3 eexists. split; [reflexivity |]. split; [reflexivity |].
    split; [reflexivity |]. split; [reflexivity |].
    split; [apply registered_lookup |].
    split; [exact (registered_lookup _ _ (set_serviceName svc st)) |].
    repeat split.
  - intros built jst ost Hm Hl Hboth.
    rewrite Jaeger_serve, OTLP_serve.
    apply handled_alike; [exact Hm | exact Hl |].
    rewrite Hboth. unfold otel.Tracer, otel.backing, otel.delegate,
      otel.globalProvider.
    destruct (installed ost) as [| p ps]; simpl; [reflexivity |].
    split; intros _; eexists; reflexivity.
  - rewrite Jaeger_serve, OTLP_serve, !handled_requestSpan.
    do 2 eexists. split; [reflexivity |]. split; [reflexivity |].
    unfold spanServiceName, spanResource, handled, finishedSpan. simpl.
    rewrite !list_lookup_middle by reflexivity.
    split; reflexivity.
Qed.

(** Both variants initialised as ["orders"], serving the example request
    with a handler that writes 404. *)
Lemma variants_agree_witness :
  (Jaeger.serve
     (Jaeger.Middleware (always [http.OpWriteHeader 404])
        (Jaeger.InitTracer succeeds succeeds "orders" "collector:4318"
           (initialWorld 1)).2)
     http.newResponse exampleRequest
     (Jaeger.InitTracer succeeds succeeds "orders" "collector:4318"
        (initialWorld 1)).2).1
  = (OTLP.serve (OTLP.HTTPMiddleware (always [http.OpWriteHeader 404]))
       http.newResponse exampleRequest
       (OTLP.InitTracer succeeds succeeds "orders" "collector:4318"
          (initialWorld 1)).2).1.
Proof.
  destruct (variants_agree succeeds succeeds succeeds "orders" "collector:4318"
              (always [http.OpWriteHeader 404]) http.newResponse exampleRequest
              (initialWorld 1) eq_refl eq_refl eq_refl)
    as (_ & Hserve & _).
  apply Hserve; [reflexivity | reflexivity |].
  split; intros _; eexists; reflexivity.
Defined.

(** C6, as stated, fails: after the same calls in both variants
    ([InitTracer] as ["orders"], the middleware built, [InitTracer] as
    ["billing"], then the request) the spans have the same name and
    attributes but not the same resource, and they come from tracers of
    different names. *)
Lemma variants_differ_after_second_InitTracer :
  let j1 := (Jaeger.InitTracer succeeds succeeds "orders" "collector:4318"
               (initialWorld 1)).2 in
  let jm := Jaeger.Middleware (always [http.OpWriteHeader 204]) j1 in
  let j2 := (Jaeger.InitTracer succeeds succeeds "billing" "collector:4318"
               j1).2 in
  let o1 := (OTLP.InitTracer succeeds succeeds "orders" "collector:4318"
               (initialWorld 1)).2 in
  let om := OTLP.HTTPMiddleware (always [http.OpWriteHeader 204]) in
  let o2 := (OTLP.InitTracer succeeds succeeds "billing" "collector:4318"
               o1).2 in
  let jres := Jaeger.serve jm http.newResponse exampleRequest j2 in
  let ores := OTLP.serve om http.newResponse exampleRequest o2 in
  exists js os : trace.Span,
    requestSpan j2 jres = Some js
    /\ requestSpan o2 ores = Some os
    /\ trace.name js = trace.name os
    /\ trace.attributes js = trace.attributes os
    /\ spanServiceName jres.2 js = Some (attribute.STRING "orders")
    /\ spanServiceName ores.2 os = Some (attribute.STRING "billing")
    /\ trace.tracerName (trace.tracer js) = "http-server"%string
    /\ trace.tracerName (trace.tracer os) = "billing"%string.
Proof.
  vm_compute. do 2 eexists.
  split; [reflexivity |]. split; [reflexivity |]. repeat split.
Qed.

(** ** The OTLP variant before [InitTracer] *)

Section BeforeInitTracer.

Lemma call_serviceName st c : serviceName (call st c) = serviceName st.
Proof.
  destruct c as [ctx n | m w r]; simpl; [reflexivity |].
  rewrite OTLP_serve. apply handled_frame.
Qed.

Lemma call_installed st c : installed (call st c) = installed st.
Proof.
  destruct c as [ctx n | m w r]; simpl; [reflexivity |].
  rewrite OTLP_serve. apply handled_frame.
Qed.

Lemma run_frame cs :
  forall st,
    serviceName (run cs st) = serviceName st
    /\ installed (run cs st) = installed st.
Proof.
  induction cs as [| c cs IH]; intros st; [split; reflexivity |].
  unfold run in *. simpl. destruct (IH (call st c)) as [Hs Hi].
  rewrite Hs, Hi, call_serviceName, call_installed. split; reflexivity.
Qed.

Lemma call_unnamed st c :
  serviceName st = ""%string -> installed st = [] ->
  Forall unnamed (spans st) -> Forall unnamed (spans (call st c)).
Proof.
  intros Hs Hi Hall. destruct c as [ctx n | m w r]; simpl.
  - unfold otel.Tracer, otel.globalProvider. rewrite Hs, Hi. simpl.
    apply Forall_app. split; [exact Hall |]. repeat constructor.
  - rewrite OTLP_serve. unfold handled. simpl.
    apply Forall_app. split; [exact Hall |].
    unfold otel.Tracer, otel.globalProvider. rewrite Hs, Hi.
    repeat constructor.
Qed.

Lemma run_unnamed cs :
  forall st,
    serviceName st = ""%string -> installed st = [] ->
    Forall unnamed (spans st) -> Forall unnamed (spans (run cs st)).
Proof.
  induction cs as [| c cs IH]; intros st Hs Hi Hall; [exact Hall |].
  unfold run in *. simpl. apply IH.
  - rewrite call_serviceName. exact Hs.
  - rewrite call_installed. exact Hi.
  - apply call_unnamed; assumption.
Qed.

End BeforeInitTracer.

(** C10. In the OTLP variant neither [StartSpan] nor the middleware
    writes the package variable [serviceName].  So after any uses of them
    from process start, with [InitTracer] never called, [serviceName] is
    still the empty string; [StartSpan] then takes the tracer named by the
    empty string from the default provider and returns a context holding
    the new span, and the span; every span started so far, and the span of
    every request through [HTTPMiddleware], comes from that tracer. *)
Theorem StartSpan_before_InitTracer :
  forall (clock : Z) (cs : list Call) (ctx : context.Context) (n : string),
    let st := run cs (initialWorld clock) in
    serviceName st = ""%string
    /\ otel.Tracer (serviceName st) st = trace.DelegatingTracer ""
    /\ (exists s : trace.Span,
          OTLP.StartSpan ctx n st
          = ({| context.reqID := context.reqID ctx;
                context.span := Some (length (spans st)) |},
             length (spans st),
             set_spans (spans st ++ [s]) st)
          /\ trace.name s = n /\ unnamed s)
    /\ Forall unnamed (spans st)
    /\ (forall m w r,
          exists s : trace.Span,
            requestSpan st (OTLP.serve m w r st) = Some s /\ unnamed s)
    /\ (forall (st0 : World) (c : Call),
          serviceName (call st0 c) = serviceName st0).
Proof.
  intros clock cs ctx n st.
  destruct (run_frame cs (initialWorld clock)) as [Hs Hi].
  fold st in Hs, Hi. simpl in Hs, Hi.
  assert (otel.Tracer (serviceName st) st = trace.DelegatingTracer "") as Ht.
  { unfold otel.Tracer, otel.globalProvider. rewrite Hs, Hi. reflexivity. }
  split; [exact Hs |]. split; [exact Ht |]. split; [| split; [| split]].
  - unfold OTLP.StartSpan, otel.Start. rewrite Ht.
    eexists. split; [reflexivity |]. split; reflexivity.
  - apply run_unnamed; [reflexivity | reflexivity | constructor].
  - intros m w r. rewrite OTLP_serve, handled_requestSpan, Ht.
    eexists. split; reflexivity.
  - intros st0 c. apply call_serviceName.
Qed.

(** * Further properties of the package *)

(** ** [InitTracer] when it succeeds, and when it does not *)

(** X1. When both constructors succeed, [InitTracer] constructs one new
    provider, registers it globally and returns its [Shutdown]; the
    provider's [service.name] is the name given.  The providers constructed
    before keep their place, and spans and clock are untouched.  Only the
    OTLP variant assigns the package variable [serviceName]. *)
Theorem InitTracer_registers_fresh_provider :
  forall (jaeger_err otlp_err resource_err : string -> option Go.error)
         (svc endpoint : string) (st : World),
    jaeger_err endpoint = None -> otlp_err endpoint = None ->
    resource_err svc = None ->
    let p := length (providers st) in
    let jinit := Jaeger.InitTracer jaeger_err resource_err svc endpoint st in
    let oinit := OTLP.InitTracer otlp_err resource_err svc endpoint st in
    providers st !! p = None
    /\ jinit.1 = Return (provider_Shutdown p)
    /\ oinit.1 = Return (provider_Shutdown p)
    /\ installed jinit.2 = p :: installed st
    /\ installed oinit.2 = p :: installed st
    /\ (exists JP OP,
          providers jinit.2 !! p = Some JP
          /\ providers oinit.2 !! p = Some OP
          /\ sdk.serviceNameOf JP = Some (attribute.STRING svc)
          /\ sdk.serviceNameOf OP = Some (attribute.STRING svc))
    /\ length (providers jinit.2) = S p
    /\ length (providers oinit.2) = S p
    /\ (forall q P,
          providers st !! q = Some P ->
          providers jinit.2 !! q = Some P /\ providers oinit.2 !! q = Some P)
    /\ spans jinit.2 = spans st /\ spans oinit.2 = spans st
    /\ mono jinit.2 = mono st /\ mono oinit.2 = mono st
    /\ serviceName jinit.2 = serviceName st
    /\ serviceName oinit.2 = svc.
Proof.
  intros jaeger_err otlp_err resource_err svc endpoint st Hj Ho Hr p jinit oinit.
  subst p jinit oinit.
  rewrite (Jaeger_InitTracer_ok _ _ svc endpoint st Hj Hr).
  rewrite (OTLP_InitTracer_ok _ _ svc endpoint st Ho Hr).
  cbn [fst snd].
  split; [apply lookup_ge_None_2; lia |].
  split; [reflexivity |]. split; [reflexivity |].
  split; [reflexivity |]. split; [reflexivity |].
  split.
  { do 2 eexists. split; [apply registered_lookup |].
    split; [exact (registered_lookup _ _ (set_serviceName svc st)) |].
    split; reflexivity. }
  split; [unfold registered; simpl; rewrite length_app; simpl; lia |].
  split; [unfold registered; simpl; rewrite length_app; simpl; lia |].
  split.
  { intros q P HP. unfold registered. simpl.
    split; apply lookup_app_l_Some; exact HP. }
  repeat split.
Qed.

(** Both variants initialised in a fresh process. *)
Lemma InitTracer_registers_fresh_provider_witness :
  (Jaeger.InitTracer succeeds succeeds "orders" "collector:4318"
     (initialWorld 1)).1 = Return (provider_Shutdown 0)
  /\ (OTLP.InitTracer succeeds succeeds "orders" "collector:4318"
        (initialWorld 1)).1 = Return (provider_Shutdown 0)
  /\ serviceName
       (OTLP.InitTracer succeeds succeeds "orders" "collector:4318"
          (initialWorld 1)).2 = "orders"%string.
Proof.
  destruct (InitTracer_registers_fresh_provider succeeds succeeds succeeds
              "orders" "collector:4318" (initialWorld 1)
              eq_refl eq_refl eq_refl)
    as (_ & Hj & Ho & _ & _ & _ & _ & _ & _ & _ & _ & _ & _ & _ & Hs).
  split; [exact Hj |]. split; [exact Ho | exact Hs].
Defined.

(** X2. [InitTracer] returns exactly when both constructors succeed;
    otherwise it panics with the error of the constructor that failed, the
    exporter's being checked first (a failing resource is not reached when
    the exporter fails). *)
Theorem InitTracer_outcome :
  forall (exporter_err resource_err : string -> option Go.error)
         (svc endpoint : string) (st : World),
    let outcome :=
      match exporter_err endpoint, resource_err svc with
      | Some e, _ => Panicking (Go.PanicError e)
      | None, Some e => Panicking (Go.PanicError e)
      | None, None => Return (provider_Shutdown (length (providers st)))
      end in
    (Jaeger.InitTracer exporter_err resource_err svc endpoint st).1 = outcome
    /\ (OTLP.InitTracer exporter_err resource_err svc endpoint st).1 = outcome
    /\ ((exists f,
            (Jaeger.InitTracer exporter_err resource_err svc endpoint st).1
            = Return f)
        <-> exporter_err endpoint = None /\ resource_err svc = None).
Proof.
  intros exporter_err resource_err svc endpoint st outcome. subst outcome.
  unfold Jaeger.InitTracer, Jaeger.jaeger_New, Jaeger.resource_New,
    OTLP.InitTracer, OTLP.otlptracehttp_New, OTLP.resource_New.
  unfold mbind, M_bind, bind. simpl.
  destruct (exporter_err endpoint) as [e |]; simpl.
  - split; [reflexivity |]. split; [reflexivity |].
    split; [intros [f Hf]; discriminate | intros [H _]; discriminate].
  - destruct (resource_err svc) as [e |]; simpl.
    + split; [reflexivity |]. split; [reflexivity |].
      split; [intros [f Hf]; discriminate | intros [_ H]; discriminate].
    + split; [reflexivity |]. split; [reflexivity |].
      split; [intros _; split; reflexivity | intros _; eexists; reflexivity].
Qed.

(** X9. A failed [InitTracer] of the OTLP variant has already assigned
    [serviceName]: [StartSpan] afterwards asks for the tracer of the failed
    call's service name (and gets one of that name, if the name is not
    empty), still from the provider that was registered before the call. *)
Theorem OTLP_failed_InitTracer_renames_tracer :
  forall (exporter_err resource_err : string -> option Go.error)
         (svc endpoint : string) (ctx : context.Context) (n : string)
         (st : World),
    exporter_err endpoint <> None \/ resource_err svc <> None ->
    let st' := (OTLP.InitTracer exporter_err resource_err svc endpoint st).2 in
    otel.globalProvider st' = otel.globalProvider st
    /\ providers st' = providers st
    /\ exists s s0 : trace.Span,
         spans (OTLP.StartSpan ctx n st').2 !! (OTLP.StartSpan ctx n st').1.2
         = Some s
         /\ spans (OTLP.StartSpan ctx n st).2 !! (OTLP.StartSpan ctx n st).1.2
            = Some s0
         /\ trace.tracer s = otel.Tracer svc st
         /\ trace.tracer s0 = otel.Tracer (serviceName st) st
         /\ (svc <> ""%string -> trace.tracerName (trace.tracer s) = svc)
         /\ trace.provider s = trace.provider s0.
Proof.
  intros exporter_err resource_err svc endpoint ctx n st Hfail st'.
  destruct (OTLP_InitTracer_fail exporter_err resource_err svc endpoint st Hfail)
    as [v Hv].
  subst st'. rewrite Hv. cbn [snd].
  split; [reflexivity |]. split; [reflexivity |].
  unfold OTLP.StartSpan, otel.Start. simpl.
  do 2 eexists.
  split; [apply list_lookup_middle; reflexivity |].
  split; [apply list_lookup_middle; reflexivity |].
  unfold otel.Tracer, otel.globalProvider. simpl.
  split; [reflexivity |]. split; [reflexivity |].
  split.
  - intros Hne. destruct (head (installed st)); simpl; [| reflexivity].
    unfold sdk.tracerNameFor.
    destruct (String.eqb_spec svc ""); [contradiction | reflexivity].
  - destruct (head (installed st)); reflexivity.
Qed.

(** A process initialised as ["orders"], then a call for ["billing"]
    whose exporter cannot be constructed. *)
Lemma OTLP_failed_InitTracer_renames_tracer_witness :
  exists s : trace.Span,
    spans
      (OTLP.StartSpan context.Background "job"
         (OTLP.InitTracer rejects succeeds "billing" "collector:4318"
            (OTLP.InitTracer succeeds succeeds "orders" "collector:4318"
               (initialWorld 1)).2).2).2 !! 0%nat = Some s
    /\ trace.tracerName (trace.tracer s) = "billing"%string
    /\ spanServiceName
         (OTLP.StartSpan context.Background "job"
            (OTLP.InitTracer rejects succeeds "billing" "collector:4318"
               (OTLP.InitTracer succeeds succeeds "orders" "collector:4318"
                  (initialWorld 1)).2).2).2 s
       = Some (attribute.STRING "orders").
Proof.
  destruct (OTLP_failed_InitTracer_renames_tracer rejects succeeds
              "billing" "collector:4318" context.Background "job"
              (OTLP.InitTracer succeeds succeeds "orders" "collector:4318"
                 (initialWorld 1)).2)
    as (_ & _ & s & s0 & Hs & _ & _ & _ & Hname & _).
  - left. vm_compute. discriminate.
  - exists s. split; [exact Hs |].
    split; [apply Hname; discriminate |].
    vm_compute in Hs. injection Hs as <-. reflexivity.
Defined.

(** ** The middleware's span in more detail *)

(** X3. When the handler returns, a recorded span carries exactly six
    attributes, in the order they were set: method, target (the path),
    request id, client address, status code and duration.  The request id
    is the empty string when the request's context holds none. *)
Theorem returned_request_attributes :
  forall (v : Installed) (w : http.response) (r : http.Request) (st : World),
    recording v st ->
    (serve v w r st).1.2 = None ->
    exists (s : trace.Span) (status ms : Z),
      requestSpan st (serve v w r st) = Some s
      /\ trace.attributes s =
           [("http.method"%string, attribute.STRING (http.Method r));
            ("http.target"%string, attribute.STRING (url.Path (http.URL r)));
            ("http.request_id"%string,
              attribute.STRING
                (match context.reqID (http.Context r) with
                 | Some id => id
                 | None => ""%string
                 end));
            ("http.client_ip"%string, attribute.STRING (http.RemoteAddr r));
            ("http.status_code"%string, attribute.INT64 status);
            ("http.duration_ms"%string, attribute.FLOAT64 ms)].
Proof.
  intros v w r st [p Hrec]. rewrite serve_handled, handled_requestSpan.
  unfold handled, finishedSpan. simpl. rewrite Hrec.
  destruct (wrappedRun (nextOf v) w r st) as [[ww now] [pv |]]; simpl;
    [discriminate |].
  intros _. do 3 eexists. split; reflexivity.
Qed.

(** A request without a request id in its context. *)
Lemma returned_request_attributes_witness :
  exists (s : trace.Span) (status ms : Z),
    requestSpan exampleWorld
      (serve (exampleMiddleware (always [http.OpWriteHeader 204]))
         http.newResponse
         (http.WithContext exampleRequest context.Background) exampleWorld)
    = Some s
    /\ trace.attributes s =
         [("http.method"%string, attribute.STRING "GET");
          ("http.target"%string, attribute.STRING "/orders/42");
          ("http.request_id"%string, attribute.STRING "");
          ("http.client_ip"%string, attribute.STRING "10.0.0.5:1234");
          ("http.status_code"%string, attribute.INT64 status);
          ("http.duration_ms"%string, attribute.FLOAT64 ms)].
Proof.
  apply (returned_request_attributes
           (exampleMiddleware (always [http.OpWriteHeader 204]))
           http.newResponse
           (http.WithContext exampleRequest context.Background) exampleWorld).
  - vm_compute. eexists. reflexivity.
  - reflexivity.
Defined.

(** X4. While no provider has been registered, a request through either
    middleware (the Jaeger one built in such a state) still gets a span
    that is ended once, but the span is not recorded: it has no attributes
    and no resource. *)
Theorem unregistered_span_is_empty :
  forall (built : World) (next : http.Handler) (m : OTLP.Closure)
         (w : http.response) (r : http.Request) (st : World),
    installed built = [] -> installed st = [] ->
    (exists s : trace.Span,
        requestSpan st (Jaeger.serve (Jaeger.Middleware next built) w r st)
        = Some s
        /\ trace.attributes s = [] /\ trace.endCalls s = 1%nat
        /\ spanResource
             (Jaeger.serve (Jaeger.Middleware next built) w r st).2 s = None)
    /\ (exists s : trace.Span,
          requestSpan st (OTLP.serve m w r st) = Some s
          /\ trace.attributes s = [] /\ trace.endCalls s = 1%nat
          /\ spanResource (OTLP.serve m w r st).2 s = None).
Proof.
  intros built next m w r st Hb Hst.
  rewrite Jaeger_serve, OTLP_serve, !handled_requestSpan.
  unfold Jaeger.Middleware, otel.Tracer, otel.globalProvider.
  rewrite Hb, Hst. simpl.
  split; eexists; (split; [reflexivity |]);
    unfold finishedSpan, spanResource, otel.backing, otel.delegate; simpl;
    rewrite Hst; simpl; repeat split.
Qed.

(** The example request in a process that never called [InitTracer]. *)
Lemma unregistered_span_is_empty_witness :
  exists s : trace.Span,
    requestSpan (initialWorld 1)
      (OTLP.serve (OTLP.HTTPMiddleware (always [http.OpWriteHeader 204]))
         http.newResponse exampleRequest (initialWorld 1)) = Some s
    /\ trace.attributes s = [] /\ trace.endCalls s = 1%nat.
Proof.
  destruct (unregistered_span_is_empty (initialWorld 1) (always [])
              (OTLP.HTTPMiddleware (always [http.OpWriteHeader 204]))
              http.newResponse exampleRequest (initialWorld 1)
              eq_refl eq_refl)
    as (_ & s & Hs & Ha & He & _).
  exists s. split; [exact Hs |]. split; [exact Ha | exact He].
Defined.

(** X5. A Jaeger middleware built before the first [InitTracer] holds a
    tracer of the default provider, which forwards to the first provider
    ever registered: its spans carry the first call's service name, after
    that call and still after a second one. *)
Theorem Jaeger_middleware_built_before_InitTracer :
  forall (jaeger_err resource_err : string -> option Go.error)
         (svc1 url1 svc2 url2 : string) (next : http.Handler)
         (w : http.response) (r : http.Request) (st : World),
    installed st = [] ->
    jaeger_err url1 = None -> jaeger_err url2 = None ->
    resource_err svc1 = None -> resource_err svc2 = None ->
    let m := Jaeger.Middleware next st in
    let st1 := (Jaeger.InitTracer jaeger_err resource_err svc1 url1 st).2 in
    let st2 := (Jaeger.InitTracer jaeger_err resource_err svc2 url2 st1).2 in
    (exists s : trace.Span,
        requestSpan st1 (Jaeger.serve m w r st1) = Some s
        /\ spanServiceName (Jaeger.serve m w r st1).2 s
           = Some (attribute.STRING svc1))
    /\ (exists s : trace.Span,
          requestSpan st2 (Jaeger.serve m w r st2) = Some s
          /\ spanServiceName (Jaeger.serve m w r st2).2 s
             = Some (attribute.STRING svc1)).
Proof.
  intros jaeger_err resource_err svc1 url1 svc2 url2 next w r st
    Hst Hj1 Hj2 Hr1 Hr2 m st1 st2.
  subst st2 st1 m.
  rewrite (Jaeger_InitTracer_ok _ _ svc1 url1 st Hj1 Hr1). cbn [snd].
  rewrite (Jaeger_InitTracer_ok _ _ svc2 url2 _ Hj2 Hr2). cbn [snd].
  assert (forall later,
             last (installed later) = Some (length (providers st)) ->
             otel.backing (Jaeger.tracer (Jaeger.Middleware next st)) later
             = Some (length (providers st))) as Hback.
  { intros later Hlast.
    unfold Jaeger.Middleware, otel.Tracer, otel.globalProvider.
    rewrite Hst. exact Hlast. }
  split.
  - apply (served_after_registered
             (ViaJaeger (Jaeger.Middleware next st)) w r _ _ svc1 st eq_refl).
    apply Hback. unfold registered. simpl. rewrite Hst. reflexivity.
  - rewrite Jaeger_serve.
    match goal with
    | |- context [requestSpan ?W _] =>
        edestruct (handled_resource (Jaeger.tracer (Jaeger.Middleware next st))
                     (Jaeger.next (Jaeger.Middleware next st)) w r W)
          as (s & Hs & Hres & _)
    end.
    { apply Hback. unfold registered. simpl. rewrite Hst. reflexivity. }
    { unfold registered. simpl. apply lookup_app_l_Some.
      apply list_lookup_middle. reflexivity. }
    exists s. split; [exact Hs |].
    rewrite (spanServiceName_resource _ _ _ Hres). reflexivity.
Qed.

(** A middleware built at process start, then ["orders"], then ["billing"]. *)
Lemma Jaeger_middleware_built_before_InitTracer_witness :
  exists s : trace.Span,
    requestSpan
      (Jaeger.InitTracer succeeds succeeds "billing" "collector:14268"
         (Jaeger.InitTracer succeeds succeeds "orders" "collector:14268"
            (initialWorld 1)).2).2
      (Jaeger.serve (Jaeger.Middleware (always []) (initialWorld 1))
         http.newResponse exampleRequest
         (Jaeger.InitTracer succeeds succeeds "billing" "collector:14268"
            (Jaeger.InitTracer succeeds succeeds "orders" "collector:14268"
               (initialWorld 1)).2).2) = Some s
    /\ spanServiceName
         (Jaeger.serve (Jaeger.Middleware (always []) (initialWorld 1))
            http.newResponse exampleRequest
            (Jaeger.InitTracer succeeds succeeds "billing" "collector:14268"
               (Jaeger.InitTracer succeeds succeeds "orders" "collector:14268"
                  (initialWorld 1)).2).2).2 s
       = Some (attribute.STRING "orders").
Proof.
  destruct (Jaeger_middleware_built_before_InitTracer succeeds succeeds
              "orders" "collector:14268" "billing" "collector:14268"
              (always []) http.newResponse exampleRequest (initialWorld 1)
              eq_refl eq_refl eq_refl eq_refl eq_refl)
    as (_ & Hsecond).
  exact Hsecond.
Defined.

(** X6. A request's span is the child of the span in the request's
    context, and the wrapped handler is called with the request whose
    context holds the request's span and the same request id: what the
    handler does is what it does for that request.  In the OTLP variant, a
    request that carries the context returned by [StartSpan] gets a span
    whose parent is the [StartSpan] span; the middleware ends its own span
    only, the parent is left open. *)
Theorem request_span_is_child :
  forall (v : Installed) (m : OTLP.Closure) (w : http.response)
         (r : http.Request) (ctx : context.Context) (n : string) (st : World),
    (exists s : trace.Span,
        spans (serve v w r st).2 !! length (spans st) = Some s
        /\ trace.parent s = context.span (http.Context r)
        /\ ((serve v w r st).1.1, mono (serve v w r st).2, (serve v w r st).1.2)
           = (middleware.Unwrap
                (http.perform
                   (nextOf v
                      (http.WithContext r
                         {| context.reqID := context.reqID (http.Context r);
                            context.span := Some (length (spans st)) |}))
                   (middleware.NewWrapResponseWriter w (http.ProtoMajor r))
                   (mono st)).1.1,
              (http.perform
                 (nextOf v
                    (http.WithContext r
                       {| context.reqID := context.reqID (http.Context r);
                          context.span := Some (length (spans st)) |}))
                 (middleware.NewWrapResponseWriter w (http.ProtoMajor r))
                 (mono st)).1.2,
              (http.perform
                 (nextOf v
                    (http.WithContext r
                       {| context.reqID := context.reqID (http.Context r);
                          context.span := Some (length (spans st)) |}))
                 (middleware.NewWrapResponseWriter w (http.ProtoMajor r))
                 (mono st)).2))
    /\ (let started := OTLP.StartSpan ctx n st in
        let res := OTLP.serve m w (http.WithContext r started.1.1) started.2 in
        exists parent child : trace.Span,
          spans res.2 !! started.1.2 = Some parent
          /\ requestSpan started.2 res = Some child
          /\ trace.parent child = Some started.1.2
          /\ trace.name parent = n
          /\ trace.endCalls parent = 0%nat
          /\ trace.endCalls child = 1%nat).
Proof.
  intros v m w r ctx n st. split.
  - rewrite serve_handled.
    pose proof (handled_requestSpan (tracerOf v st) (nextOf v) w r st) as Hs.
    unfold requestSpan in Hs. rewrite Hs.
    eexists. split; [reflexivity |]. split; reflexivity.
  - intros started res. subst res started.
    rewrite OTLP_serve, handled_requestSpan.
    unfold handled, OTLP.StartSpan, otel.Start. simpl.
    do 2 eexists. split.
    { rewrite lookup_app_l by (rewrite length_app; simpl; lia).
      apply list_lookup_middle. reflexivity. }
    repeat split.
Qed.

(** X7. Once the middleware has returned, the request's span takes no
    more attributes: [SetAttributes] on it changes nothing. *)
Theorem span_is_closed_after_return :
  forall (v : Installed) (w : http.response) (r : http.Request) (st : World)
         (kvs : list attribute.KeyValue),
    otel.SetAttributes (length (spans st)) kvs (serve v w r st).2
    = (serve v w r st).2.
Proof.
  intros v w r st kvs. rewrite serve_handled.
  unfold handled, otel.SetAttributes, set_spans. simpl.
  rewrite alter_snoc.
  unfold trace.Span_SetAttributes, trace.IsRecording, finishedSpan. simpl.
  destruct (otel.backing (tracerOf v st) st); reflexivity.
Qed.

(** X8. Any sequence of requests through the middlewares adds one span
    per request, each ended exactly once, changes no earlier span and
    leaves the provider registry and [serviceName] as they were. *)
Theorem requests_leave_ended_spans :
  forall (reqs : list (Installed * http.response * http.Request)) (st : World),
    exists added : list trace.Span,
      spans (serveAll reqs st) = spans st ++ added
      /\ length added = length reqs
      /\ Forall (fun s => trace.endCalls s = 1%nat) added
      /\ providers (serveAll reqs st) = providers st
      /\ installed (serveAll reqs st) = installed st
      /\ serviceName (serveAll reqs st) = serviceName st.
Proof.
  induction reqs as [| [[v w] r] rest IH]; intros st.
  - exists []. simpl. rewrite app_nil_r. repeat split. constructor.
  - simpl. destruct (IH (serve v w r st).2)
      as (added & Hspans & Hlen & Hall & Hp & Hi & Hn).
    rewrite Hspans, Hp, Hi, Hn. rewrite serve_handled.
    destruct (handled_frame (tracerOf v st) (nextOf v) w r st)
      as (Hp' & Hi' & Hn').
    rewrite Hp', Hi', Hn'. unfold handled. simpl.
    eexists (_ :: added). rewrite <- app_assoc. simpl.
    split; [reflexivity |]. split; [rewrite Hlen; reflexivity |].
    split; [constructor; [reflexivity | exact Hall] |].
    repeat split.
Qed.

(** X10. The tracer behind a span differs between the variants: the
    Jaeger middleware always uses the tracer named ["http-server"]; the OTLP
    middleware asks for the tracer named by [serviceName], so its tracer
    has that name, or the SDK's default name when [serviceName] is empty
    and a provider is registered.  [serviceName] is the service name of the
    latest [InitTracer] call, whether that call succeeded or panicked. *)
Theorem tracer_names :
  (forall (next : http.Handler) (built : World) (w : http.response)
          (r : http.Request) (st : World),
      exists s : trace.Span,
        requestSpan st (Jaeger.serve (Jaeger.Middleware next built) w r st)
        = Some s
        /\ trace.tracerName (trace.tracer s) = "http-server"%string)
  /\ (forall (m : OTLP.Closure) (w : http.response) (r : http.Request)
             (st : World),
        exists s : trace.Span,
          requestSpan st (OTLP.serve m w r st) = Some s
          /\ trace.tracerName (trace.tracer s)
             = match otel.globalProvider st with
               | None => serviceName st
               | Some _ =>
                   if String.eqb (serviceName st) ""
                   then "go.opentelemetry.io/otel/sdk/tracer"%string
                   else serviceName st
               end)
  /\ (forall (exporter_err resource_err : string -> option Go.error)
             (svc endpoint : string) (st : World),
        serviceName
          (OTLP.InitTracer exporter_err resource_err svc endpoint st).2 = svc).
Proof.
  split; [| split].
  - intros next built w r st. rewrite Jaeger_serve, handled_requestSpan.
    eexists. split; [reflexivity |].
    unfold Jaeger.Middleware, otel.Tracer. simpl.
    destruct (otel.globalProvider built); reflexivity.
  - intros m w r st. rewrite OTLP_serve, handled_requestSpan.
    eexists. split; [reflexivity |].
    unfold otel.Tracer. simpl.
    destruct (otel.globalProvider st); reflexivity.
  - intros exporter_err resource_err svc endpoint st.
    unfold OTLP.InitTracer, OTLP.otlptracehttp_New, OTLP.resource_New.
    unfold mbind, M_bind, bind. simpl.
    destruct (exporter_err endpoint); [reflexivity |].
    destruct (resource_err svc); reflexivity.
Qed.

(** ** The recorded status *)

Section FirstStatus.
Import middleware.

(** Once the wrapper has recorded a status, nothing the handler does
    changes it. *)
Lemma perform_code_stable ops :
  forall b mono,
    wroteHeader b = true ->
    code (http.perform ops b mono).1.1 = code b
    /\ wroteHeader (http.perform ops b mono).1.1 = true.
Proof.
  induction ops as [| op k IH]; intros [iw wrote cd n] mono Hb;
    simpl in Hb; subst wrote; [split; reflexivity |].
  destruct op as [c | c | buf | | ns | v]; simpl.
  - unfold basicWriter_WriteHeader. simpl.
    destruct (http.isInformational c); simpl.
    + destruct (http.response_WriteHeader c iw) as [w' [pv |]]; simpl.
      * split; reflexivity.
      * apply (IH {| inner := w'; wroteHeader := true; code := cd;
                     bytes := n |} mono eq_refl).
    + apply (IH {| inner := iw; wroteHeader := true; code := cd;
                   bytes := n |} mono eq_refl).
  - unfold basicWriter_WriteHeader. simpl.
    destruct (http.isInformational c); simpl.
    + destruct (http.response_WriteHeader c iw) as [w' pv]; simpl.
      apply (IH {| inner := w'; wroteHeader := true; code := cd;
                   bytes := n |} mono eq_refl).
    + apply (IH {| inner := iw; wroteHeader := true; code := cd;
                   bytes := n |} mono eq_refl).
  - unfold basicWriter_Write, maybeWriteHeader. simpl.
    destruct (http.response_Write buf iw) as [w' m]. simpl.
    apply (IH {| inner := w'; wroteHeader := true; code := cd;
                 bytes := n + m |} mono eq_refl).
  - apply (IH {| inner := http.response_Flush iw; wroteHeader := true;
                 code := cd; bytes := n |} mono eq_refl).
  - apply (IH {| inner := iw; wroteHeader := true; code := cd;
                 bytes := n |} _ eq_refl).
  - split; reflexivity.
Qed.

End FirstStatus.

(** X11. The first status wins: when the handler's first call on its
    writer is [WriteHeader] with a final status (not 1xx other than 101),
    that status is what a recorded span shows after the handler returns,
    whatever the handler writes later; when its first call is [Write], the
    span shows 200. *)
Theorem first_status_is_recorded :
  forall (v : Installed) (w : http.response) (r : http.Request) (st : World)
         (first : http.HandlerOp) (rest : list http.HandlerOp),
    recording v st ->
    nextOf v (traced r st) = first :: rest ->
    (serve v w r st).1.2 = None ->
    match first with
    | http.OpWriteHeader c =>
        http.isInformational c = false ->
        recorded semconv.HTTPStatusCodeKey st (serve v w r st)
        = Some (attribute.INT64 c)
    | http.OpWrite _ =>
        recorded semconv.HTTPStatusCodeKey st (serve v w r st)
        = Some (attribute.INT64 200)
    | _ => True
    end.
Proof.
  intros v w r st first rest [p Hrec] Hops. rewrite serve_handled.
  unfold recorded. rewrite handled_requestSpan.
  unfold handled, finishedSpan. simpl. rewrite Hrec.
  unfold wrappedRun, http.ServeHTTP. rewrite Hops.
  destruct first as [c | c | buf | | ns | pv]; try (intros; exact I).
  - simpl. unfold middleware.basicWriter_WriteHeader.
    intros Hret Hinf. revert Hret. rewrite Hinf. simpl.
    destruct (http.response_WriteHeader c w) as [w' [pv |]]; simpl;
      [discriminate |].
    match goal with
    | |- context [http.perform rest ?b ?m] =>
        destruct (perform_code_stable rest b m eq_refl) as [Hc _];
        destruct (http.perform rest b m) as [[ww now] [pv |]]
    end; simpl in *; [discriminate |].
    intros _. unfold middleware.Status. rewrite Hc. reflexivity.
  - simpl.
    unfold middleware.basicWriter_Write, middleware.maybeWriteHeader,
      middleware.basicWriter_WriteHeader. simpl.
    destruct (http.response_WriteHeader http.StatusOK w) as [w1 p1]. simpl.
    destruct (http.response_Write buf w1) as [w2 n]. simpl.
    match goal with
    | |- context [http.perform rest ?b ?m] =>
        destruct (perform_code_stable rest b m eq_refl) as [Hc _];
        destruct (http.perform rest b m) as [[ww now] [pv |]]
    end; simpl in *; [discriminate |].
    intros _. unfold middleware.Status. rewrite Hc. reflexivity.
Qed.

(** A handler that writes 404, then 500, then a body. *)
Lemma first_status_is_recorded_witness :
  recorded semconv.HTTPStatusCodeKey exampleWorld
    (serve
       (exampleMiddleware
          (always [http.OpWriteHeader 404; http.OpWriteHeader 500;
                   http.OpWrite [x6f%byte; x6b%byte]]))
       http.newResponse exampleRequest exampleWorld)
  = Some (attribute.INT64 404).
Proof.
  apply (first_status_is_recorded
           (exampleMiddleware
              (always [http.OpWriteHeader 404; http.OpWriteHeader 500;
                       http.OpWrite [x6f%byte; x6b%byte]]))
           http.newResponse exampleRequest exampleWorld
           (http.OpWriteHeader 404)
           [http.OpWriteHeader 500; http.OpWrite [x6f%byte; x6b%byte]]).
  - vm_compute. eexists. reflexivity.
  - reflexivity.
  - reflexivity.
  - reflexivity.
Defined.
